(** * The file-based rendezvous of [hymm_sp/gradio/api_server.py]

    A shallow embedding of the Flask handler [generate_next] and of the
    cursor store [get_current_index] / [update_current_index], together
    with the properties of the request/response protocol.

    Modelling conventions.
    - The shared directory is a finite map from paths to file contents.
      File contents are ASCII text.  Reading a file that exists succeeds;
      opening for writing, removing and renaming may fail.
    - The process clock counts whole seconds; only [time.sleep] advances
      it, and the external worker acts on the directory while the handler
      sleeps (one oracle call per second slept).
    - [json.load], [json.dump], [traceback.format_exc], the worker and the
      failures of the operating system are not code of this repository:
      they are fields of an [environment] over which every theorem is
      universally quantified.
    - Every primitive records an [event], most recent first, so that the
      order and the footprint of the handler's effects can be stated. *)

From Stdlib Require Import ZArith String Ascii List Bool Lia.
From Stdlib Require Import Floats.SpecFloat.
From Stdlib Require Import DecimalString DecimalPos DecimalN DecimalZ.
From stdpp Require Import base strings gmap.

Local Set Warnings "-register-all".
Local Open Scope string_scope.
Local Open Scope Z_scope.

(** ** Python exceptions *)

Inductive exn_class : Set :=
  | Exception
  | OSError
  | FileNotFoundError
  | PermissionError
  | ValueError
  | JSONDecodeError
  | TypeError
  | AttributeError.

Definition exn_class_eqb (c d : exn_class) : bool :=
  match c, d with
  | Exception, Exception | OSError, OSError
  | FileNotFoundError, FileNotFoundError
  | PermissionError, PermissionError | ValueError, ValueError
  | JSONDecodeError, JSONDecodeError | TypeError, TypeError
  | AttributeError, AttributeError => true
  | _, _ => false
  end.

(** The direct base class in Python's exception hierarchy. *)
Definition base_class (c : exn_class) : option exn_class :=
  match c with
  | Exception => None
  | OSError | ValueError | TypeError | AttributeError => Some Exception
  | FileNotFoundError | PermissionError => Some OSError
  | JSONDecodeError => Some ValueError
  end.

Fixpoint issubclass_upto (depth : nat) (c d : exn_class) : bool :=
  exn_class_eqb c d ||
  match depth, base_class c with
  | S depth', Some b => issubclass_upto depth' b d
  | _, _ => false
  end.

Definition issubclass : exn_class -> exn_class -> bool := issubclass_upto 2.

Record pyexn : Set := PyExn { exn_type : exn_class; exn_str : string }.

(** An [except (C1, C2, ...)] clause catches [e] when its class derives
    from one of the listed classes. *)
Definition caught_by (classes : list exn_class) (e : pyexn) : bool :=
  existsb (issubclass (exn_type e)) classes.

(** ** Values produced by [json.load] *)

Inductive json : Type :=
  | JNull
  | JBool (b : bool)
  | JInt (n : Z)
  | JFloat (x : spec_float)
  | JStr (s : string)
  | JArr (items : list json)
  | JObj (members : list (string * json)).

Definition response : Type := json * Z.

(** Python truth value of a JSON value. *)
Definition py_truthy (v : json) : bool :=
  match v with
  | JNull => false
  | JBool b => b
  | JInt n => negb (n =? 0)
  | JFloat (S754_zero _) => false
  | JFloat _ => true
  | JStr s => negb (String.eqb s "")
  | JArr items => match items with [] => false | _ => true end
  | JObj members => match members with [] => false | _ => true end
  end.

(** [x or y] *)
Definition py_or (x y : json) : json := if py_truthy x then x else y.

Fixpoint dict_lookup (key : string) (members : list (string * json))
  : option json :=
  match members with
  | [] => None
  | (k, v) :: rest => if String.eqb k key then Some v else dict_lookup key rest
  end.

Definition type_name (v : json) : string :=
  match v with
  | JNull => "NoneType"
  | JBool _ => "bool"
  | JInt _ => "int"
  | JFloat _ => "float"
  | JStr _ => "str"
  | JArr _ => "list"
  | JObj _ => "dict"
  end.

(** [s.startswith(p)] and [p in s] on strings. *)
Fixpoint starts_with (p s : string) : bool :=
  match p, s with
  | EmptyString, _ => true
  | String a p', String b s' => Ascii.eqb a b && starts_with p' s'
  | String _ _, EmptyString => false
  end.

Fixpoint is_substring (p s : string) : bool :=
  starts_with p s ||
  match s with
  | EmptyString => false
  | String _ s' => is_substring p s'
  end.

Definition json_is_str (s : string) (v : json) : bool :=
  match v with
  | JStr t => String.eqb s t
  | _ => false
  end.

(** ** Results of Python computations *)

Inductive res (A : Type) : Type :=
  | Val (a : A)
  | Raise (e : pyexn)
  | OutOfFuel.

Arguments Val {A} a.
Arguments Raise {A} e.
Arguments OutOfFuel {A}.

(** [key in container] for a string key. *)
Definition py_in (key : string) (container : json) : res bool :=
  match container with
  | JObj members =>
      Val (match dict_lookup key members with Some _ => true | None => false end)
  | JArr items => Val (existsb (json_is_str key) items)
  | JStr s => Val (is_substring key s)
  | other =>
      Raise (PyExn TypeError
        ("argument of type '" +:+ type_name other +:+ "' is not iterable"))
  end.

(** [d.get(key)]: [None] when the key is missing, [AttributeError] when the
    receiver is not a dict. *)
Definition py_get (d : json) (key : string) : res json :=
  match d with
  | JObj members =>
      Val (match dict_lookup key members with Some v => v | None => JNull end)
  | other =>
      Raise (PyExn AttributeError
        ("'" +:+ type_name other +:+ "' object has no attribute 'get'"))
  end.

(** ** [str.strip], [int(str)] and [str(int)] *)

Definition is_space (a : ascii) : bool :=
  let n := N_of_ascii a in
  ((9 <=? n) && (n <=? 13) || (28 <=? n) && (n <=? 32))%N.

Fixpoint py_lstrip (s : string) : string :=
  match s with
  | EmptyString => EmptyString
  | String a s' => if is_space a then py_lstrip s' else s
  end.

Fixpoint py_rstrip (s : string) : string :=
  match s with
  | EmptyString => EmptyString
  | String a s' =>
      match py_rstrip s' with
      | EmptyString => if is_space a then EmptyString else String a EmptyString
      | t => String a t
      end
  end.

Definition py_strip (s : string) : string := py_rstrip (py_lstrip s).

Definition digit_value (a : ascii) : option Z :=
  let n := N_of_ascii a in
  if ((48 <=? n) && (n <=? 57))%N then Some (Z.of_N n - 48) else None.

(** Decimal digits, single underscores allowed between two digits. *)
Fixpoint digits_value (acc : Z) (after_digit : bool) (s : string) : option Z :=
  match s with
  | EmptyString => if after_digit then Some acc else None
  | String a s' =>
      match digit_value a with
      | Some d => digits_value (10 * acc + d) true s'
      | None =>
          if Ascii.eqb a "_" && after_digit
          then match s' with
               | EmptyString => None
               | String b _ =>
                   match digit_value b with
                   | Some _ => digits_value acc false s'
                   | None => None
                   end
               end
          else None
      end
  end.

Definition int_literal (s : string) : option Z :=
  match s with
  | String "-" s' => option_map Z.opp (digits_value 0 false s')
  | String "+" s' => digits_value 0 false s'
  | _ => digits_value 0 false s
  end.

(** [int(s)]: surrounding whitespace is ignored, anything that is not a
    decimal literal raises [ValueError]. *)
Definition py_int (s : string) : res Z :=
  match int_literal (py_strip s) with
  | Some n => Val n
  | None =>
      Raise (PyExn ValueError
        ("invalid literal for int() with base 10: '" +:+ s +:+ "'"))
  end.

(** [str(n)] *)
Definition py_str (n : Z) : string := NilZero.string_of_int (Z.to_int n).

Example py_str_examples :
  py_str 0 = "0" /\ py_str 1000 = "1000" /\ py_str (-1) = "-1".
Proof. repeat split. Qed.

Example py_int_examples :
  py_int " 42 " = Val 42 /\ py_int "-7" = Val (-7) /\ py_int "1_000" = Val 1000
  /\ py_int "007" = Val 7 /\ (exists e, py_int "" = Raise e)
  /\ (exists e, py_int "1__0" = Raise e) /\ (exists e, py_int "12_" = Raise e)
  /\ (exists e, py_int "_12" = Raise e) /\ (exists e, py_int "+ 1" = Raise e)
  /\ (exists e, py_int "0x10" = Raise e).
Proof. repeat split; eauto. Qed.

(** ** Configuration (module-level constants of the server) *)

Definition STATE_FILE : string := "./gradio_results/current_index.txt".
Definition TRIGGER_FILE : string := "./gradio_results/trigger.txt".
Definition RESULT_DIR : string := "./gradio_results".
Definition SHUTDOWN_FILE : string := "./gradio_results/shutdown_worker.signal".
Definition MAX_WAIT_TIME : Z := 30000.
Definition CHECK_INTERVAL : Z := 1.

Definition get_total_samples : Z := 1000.

(** ** The shared directory, the clock and the observable events *)

Inductive log_level : Set := INFO | WARNING | ERROR.

Inductive event : Type :=
  | EvExists (path : string)
  | EvRead (path : string)
  | EvWrite (path : string)
  | EvRemove (path : string)
  | EvReplace (src dst : string)
  | EvSleep (seconds : Z)
  | EvLog (level : log_level) (message : string).

Record world : Type := World {
  files : gmap string string;
  clock : Z;
  events : list event
}.

(** What the handler relies on but does not implement. *)
Record environment : Type := Environment {
  json_load : string -> json + pyexn;
  json_dumps : json -> string;
  format_exc : pyexn -> string;
  worker : Z -> gmap string string -> gmap string string;
  open_w_fault : string -> option pyexn;
  remove_fault : string -> option pyexn;
  replace_fault : string -> string -> option pyexn
}.

(** ** A state-and-exception monad for the handler *)

Definition M (A : Type) : Type := world -> world * res A.

Definition ret {A} (a : A) : M A := fun w => (w, Val a).

Definition bind {A B} (m : M A) (k : A -> M B) : M B :=
  fun w =>
    match m w with
    | (w', Val a) => k a w'
    | (w', Raise e) => (w', Raise e)
    | (w', OutOfFuel) => (w', OutOfFuel)
    end.

Definition raise {A} (e : pyexn) : M A := fun w => (w, Raise e).

Definition lift {A} (r : res A) : M A := fun w => (w, r).

(** [try: body  except classes as e: handler e] *)
Definition try_except {A} (body : M A) (classes : list exn_class)
    (handler : pyexn -> M A) : M A :=
  fun w =>
    match body w with
    | (w', Raise e) => if caught_by classes e then handler e w' else (w', Raise e)
    | other => other
    end.

Declare Scope py_scope.
Delimit Scope py_scope with py.
Notation "x <- m ;; k" := (bind m (fun x => k))
  (at level 63, m at next level, right associativity, only parsing) : py_scope.
Notation "m ;;; k" := (bind m (fun _ => k))
  (at level 63, right associativity, only parsing) : py_scope.
Local Open Scope py_scope.

Definition record (e : event) (w : world) : world :=
  {| files := files w; clock := clock w; events := e :: events w |}.

Definition set_files (fs : gmap string string) (w : world) : world :=
  {| files := fs; clock := clock w; events := events w |}.

Section Server.

Variable E : environment.

(** *** Primitives *)

Definition logger (level : log_level) (message : string) : M unit :=
  fun w => (record (EvLog level message) w, Val tt).

Definition os_path_exists (path : string) : M bool :=
  fun w =>
    (record (EvExists path) w,
     Val (match files w !! path with Some _ => true | None => false end)).

(** [with open(path, 'r') as f: f.read()] *)
Definition read_file (path : string) : M string :=
  fun w =>
    let w' := record (EvRead path) w in
    match files w !! path with
    | Some text => (w', Val text)
    | None =>
        (w', Raise (PyExn FileNotFoundError
               ("[Errno 2] No such file or directory: '" +:+ path +:+ "'")))
    end.

(** [with open(path, 'w') as f: f.write(text)] *)
Definition write_file (path text : string) : M unit :=
  fun w =>
    let w' := record (EvWrite path) w in
    match open_w_fault E path with
    | Some e => (w', Raise e)
    | None => (set_files (<[path := text]> (files w)) w', Val tt)
    end.

Definition os_remove (path : string) : M unit :=
  fun w =>
    let w' := record (EvRemove path) w in
    match files w !! path with
    | None =>
        (w', Raise (PyExn FileNotFoundError
               ("[Errno 2] No such file or directory: '" +:+ path +:+ "'")))
    | Some _ =>
        match remove_fault E path with
        | Some e => (w', Raise e)
        | None => (set_files (delete path (files w)) w', Val tt)
        end
    end.

Definition os_replace (src dst : string) : M unit :=
  fun w =>
    let w' := record (EvReplace src dst) w in
    match files w !! src with
    | None =>
        (w', Raise (PyExn FileNotFoundError
               ("[Errno 2] No such file or directory: '" +:+ src +:+ "' -> '"
                +:+ dst +:+ "'")))
    | Some text =>
        match replace_fault E src dst with
        | Some e => (w', Raise e)
        | None => (set_files (<[dst := text]> (delete src (files w))) w', Val tt)
        end
    end.

Definition time_time : M Z := fun w => (w, Val (clock w)).

(** The directory after the worker has run for [n] seconds from time [t]. *)
Fixpoint run_worker (n : nat) (t : Z) (fs : gmap string string)
  : gmap string string :=
  match n with
  | O => fs
  | S n' => run_worker n' (t + 1) (worker E t fs)
  end.

Definition time_sleep (seconds : Z) : M unit :=
  fun w =>
    if seconds <? 0
    then (w, Raise (PyExn ValueError "sleep length must be non-negative"))
    else
      ({| files := run_worker (Z.to_nat seconds) (clock w) (files w);
          clock := clock w + seconds;
          events := EvSleep seconds :: events w |}, Val tt).

(** [os.path.join(a, b)] on POSIX paths. *)
Fixpoint ends_with_slash (s : string) : bool :=
  match s with
  | EmptyString => false
  | String a EmptyString => Ascii.eqb a "/"
  | String _ s' => ends_with_slash s'
  end.

Definition os_path_join (a b : string) : string :=
  if starts_with "/" b then b
  else if String.eqb a "" || ends_with_slash a then a +:+ b
  else a +:+ "/" +:+ b.

(** *** The cursor store *)

Definition get_current_index : M Z :=
  try_except
    (text <- read_file STATE_FILE ;;
     lift (py_int (py_strip text)))
    [FileNotFoundError; ValueError]
    (fun _ => ret 0).

Definition update_current_index (new_index : Z) : M unit :=
  try_except
    (write_file STATE_FILE (py_str new_index))
    [Exception]
    (fun e =>
       logger ERROR ("Failed to update state file: " +:+ exn_str e) ;;;
       raise e).

(** *** [generate_next]: choosing the job (request parsing and bound check) *)

(** [[field for field in required_fields if field not in custom_params]] *)
Fixpoint missing_fields_of (required_fields : list string)
    (custom_params : json) : res (list string) :=
  match required_fields with
  | [] => Val []
  | field :: rest =>
      match py_in field custom_params with
      | Val present =>
          match missing_fields_of rest custom_params with
          | Val others => Val (if present then others else field :: others)
          | Raise e => Raise e
          | OutOfFuel => OutOfFuel
          end
      | Raise e => Raise e
      | OutOfFuel => OutOfFuel
      end
  end.

(** [repr] of a list of strings, as an f-string prints it. *)
Fixpoint repr_items (items : list string) : string :=
  match items with
  | [] => ""
  | [s] => "'" +:+ s +:+ "'"
  | s :: rest => "'" +:+ s +:+ "', " +:+ repr_items rest
  end.

Definition py_repr_list (items : list string) : string :=
  "[" +:+ repr_items items +:+ "]".

(** The outcome of the first part of the handler: either an early
    response, or the index and the descriptor of the job to publish. *)
Definition choose_job (request_json : json) : M (response + Z * json) :=
  let request_data := py_or request_json (JObj []) in
  custom_params <- lift (py_get request_data "custom_params") ;;
  if py_truthy custom_params then
    logger INFO "Received custom parameter generation request" ;;;
    logger INFO ("Custom parameters: " +:+ json_dumps E custom_params) ;;;
    let required_fields : list string := [] in
    missing_fields <- lift (missing_fields_of required_fields custom_params) ;;
    match missing_fields with
    | _ :: _ =>
        ret (inl (JObj [("error",
                         JStr ("Missing required fields: "
                               +:+ py_repr_list missing_fields))], 400))
    | [] =>
        let current_index := -1 in
        let trigger_data :=
          JObj [("index", JInt current_index);
                ("custom_params", custom_params)] in
        logger INFO "Custom generation parameters validated successfully" ;;;
        ret (inr (current_index, trigger_data))
    end
  else
    current_index <- get_current_index ;;
    let total_samples := get_total_samples in
    if current_index >=? total_samples then
      ret (inl (JObj [("error", JStr "All samples generated");
                      ("index", JInt current_index)], 400))
    else
      logger INFO ("API received request. Triggering generation for index: "
                   +:+ py_str current_index) ;;;
      ret (inr (current_index, JObj [("index", JInt current_index)])).

(** *** [generate_next]: publishing the trigger *)

Definition trigger_tmp : string := TRIGGER_FILE +:+ ".tmp".

(** [None] when the trigger was published, [Some] early response when the
    [try] block raised. *)
Definition publish_trigger (trigger_data : json) : M (option response) :=
  try_except
    (write_file trigger_tmp (json_dumps E trigger_data) ;;;
     os_replace trigger_tmp TRIGGER_FILE ;;;
     time_sleep 100 ;;;
     logger INFO ("Trigger file " +:+ TRIGGER_FILE +:+ " written.") ;;;
     logger INFO ("Trigger data: " +:+ json_dumps E trigger_data) ;;;
     ret None)
    [Exception]
    (fun e =>
       logger ERROR ("Failed to write trigger file: " +:+ exn_str e) ;;;
       logger ERROR (format_exc E e) ;;;
       ret (Some (JObj [("error",
                         JStr ("Failed to trigger generation: "
                               +:+ exn_str e))], 500))).

(** *** [generate_next]: waiting for the result *)

Definition result_file_path (current_index : Z) : string :=
  if current_index =? -1 then os_path_join RESULT_DIR "result_custom.json"
  else os_path_join RESULT_DIR ("result_" +:+ py_str current_index +:+ ".json").

(** [json.load(f)] on the text of an open file. *)
Definition load_json (text : string) : M json :=
  match json_load E text with
  | inl value => ret value
  | inr e => raise e
  end.

(** The [try] block run when the result file exists. *)
Definition consume_result (current_index : Z) (path : string) : M response :=
  text <- read_file path ;;
  result <- load_json text ;;
  logger INFO ("Result file found and read: " +:+ path) ;;;
  os_remove path ;;;
  logger INFO ("Result file " +:+ path +:+ " removed.") ;;;
  (if negb (current_index =? -1) then
     update_current_index (current_index + 1) ;;;
     logger INFO ("Index updated to " +:+ py_str (current_index + 1))
   else ret tt) ;;;
  has_error <- lift (py_in "error" result) ;;
  if has_error then ret (result, 500) else ret (result, 200).

(** Its [except Exception as e] clause. *)
Definition discard_result (path : string) (e : pyexn) : M response :=
  logger ERROR ("Error reading/parsing result file " +:+ path +:+ ": "
                +:+ exn_str e) ;;;
  logger ERROR (format_exc E e) ;;;
  still_there <- os_path_exists path ;;
  (if still_there then
     try_except (os_remove path) [Exception]
       (fun remove_e =>
          logger WARNING ("Failed to remove corrupted result file: "
                          +:+ exn_str remove_e))
   else ret tt) ;;;
  ret (JObj [("error", JStr ("Error processing result: " +:+ exn_str e))], 500).

(** The [while] loop.  [Some r]: the handler returns [r] from inside the
    loop; [None]: the loop ran to its end.  The recursion is on [fuel];
    every turn that does not return sleeps [CHECK_INTERVAL]. *)
Fixpoint wait_loop (fuel : nat) (start_time current_index : Z)
    (path : string) : M (option response) :=
  match fuel with
  | O => lift OutOfFuel
  | S fuel' =>
      now <- time_time ;;
      if now - start_time <? MAX_WAIT_TIME then
        found <- os_path_exists path ;;
        if found then
          r <- try_except (consume_result current_index path) [Exception]
                 (discard_result path) ;;
          ret (Some r)
        else
          time_sleep CHECK_INTERVAL ;;;
          wait_loop fuel' start_time current_index path
      else ret None
  end.

(** The code after the loop. *)
Definition timeout_cleanup : M response :=
  trigger_there <- os_path_exists TRIGGER_FILE ;;
  (if trigger_there then
     try_except
       (os_remove TRIGGER_FILE ;;;
        logger INFO ("Removed stale trigger file " +:+ TRIGGER_FILE
                     +:+ " due to timeout."))
       [Exception]
       (fun e =>
          logger WARNING ("Could not remove stale trigger file "
                          +:+ TRIGGER_FILE +:+ ": " +:+ exn_str e))
   else ret tt) ;;;
  ret (JObj [("error", JStr "Timeout waiting for video generation")], 500).

Definition POLL_FUEL : nat := S (Z.to_nat MAX_WAIT_TIME).

Definition await_result (current_index : Z) : M response :=
  let path := result_file_path current_index in
  start_time <- time_time ;;
  returned <- wait_loop POLL_FUEL start_time current_index path ;;
  match returned with
  | Some r => ret r
  | None => timeout_cleanup
  end.

(** *** The handler of [POST /generate_next] *)

Definition generate_next (request_json : json) : M response :=
  job <- choose_job request_json ;;
  match job with
  | inl early => ret early
  | inr (current_index, trigger_data) =>
      failed <- publish_trigger trigger_data ;;
      match failed with
      | Some early => ret early
      | None => await_result current_index
      end
  end.

End Server.

(** * Properties *)

(** ** Paths *)

Lemma result_file_path_eq (i : Z) :
  result_file_path i =
  "./gradio_results/" +:+
  (if i =? -1 then "result_custom.json" else "result_" +:+ py_str i +:+ ".json").
Proof. unfold result_file_path. destruct (i =? -1); reflexivity. Qed.

Lemma result_path_not_state (i : Z) : result_file_path i <> STATE_FILE.
Proof. rewrite result_file_path_eq. destruct (i =? -1); discriminate. Qed.

Lemma result_path_not_trigger (i : Z) : result_file_path i <> TRIGGER_FILE.
Proof. rewrite result_file_path_eq. destruct (i =? -1); discriminate. Qed.

Lemma result_path_not_tmp (i : Z) : result_file_path i <> trigger_tmp.
Proof. rewrite result_file_path_eq. destruct (i =? -1); discriminate. Qed.

Lemma trigger_not_state : TRIGGER_FILE <> STATE_FILE.
Proof. discriminate. Qed.

Lemma tmp_not_state : trigger_tmp <> STATE_FILE.
Proof. discriminate. Qed.

Lemma tmp_not_trigger : trigger_tmp <> TRIGGER_FILE.
Proof.
  intros H. apply (f_equal String.length) in H. vm_compute in H. discriminate.
Qed.

(** ** Decimal round trip: [int(str(n).strip()) = n] *)

Definition no_space (s : string) : bool :=
  forallb (fun a => negb (is_space a)) (list_ascii_of_string s).

Lemma py_rstrip_no_space (s : string) : no_space s = true -> py_rstrip s = s.
Proof.
  induction s as [|a s IH]; [reflexivity|].
  unfold no_space. cbn [list_ascii_of_string forallb].
  intros [Ha Hs]%andb_prop. cbn [py_rstrip].
  rewrite (IH Hs). destruct (is_space a); [discriminate|].
  destruct s; reflexivity.
Qed.

Lemma py_strip_no_space (s : string) : no_space s = true -> py_strip s = s.
Proof.
  intros H. unfold py_strip.
  assert (Hl : py_lstrip s = s).
  { destruct s as [|a s]; [reflexivity|].
    unfold no_space in H. cbn [list_ascii_of_string forallb] in H.
    apply andb_prop in H as [Ha _]. cbn [py_lstrip].
    destruct (is_space a); [discriminate|reflexivity]. }
  rewrite Hl. apply py_rstrip_no_space, H.
Qed.

Lemma no_space_string_of_uint (d : Decimal.uint) :
  no_space (NilEmpty.string_of_uint d) = true.
Proof. induction d; [reflexivity|exact IHd..]. Qed.

Lemma digits_value_of_uint_acc (d : Decimal.uint) (acc : positive) :
  digits_value (Z.pos acc) true (NilEmpty.string_of_uint d)
  = Some (Z.pos (Pos.of_uint_acc d acc)).
Proof.
  revert acc. induction d; intros acc; [reflexivity|..];
    cbn [NilEmpty.string_of_uint digits_value Pos.of_uint_acc];
    (match goal with
     | |- context [digit_value ?c] =>
         let v := eval vm_compute in (digit_value c) in
         change (digit_value c) with v
     end); cbv beta iota; rewrite <- IHd; f_equal; lia.
Qed.

Lemma digits_value_of_uint (d : Decimal.uint) (after_digit : bool) :
  d <> Decimal.Nil \/ after_digit = true ->
  digits_value 0 after_digit (NilEmpty.string_of_uint d)
  = Some (Z.of_N (Pos.of_uint d)).
Proof.
  revert after_digit. induction d; intros b Hb.
  - destruct Hb as [Hb | ->]; [congruence|reflexivity].
  - cbn [NilEmpty.string_of_uint digits_value Pos.of_uint].
    change (digit_value "0") with (Some 0). cbv beta iota.
    change (10 * 0 + 0) with 0. apply IHd. now right.
  - apply (digits_value_of_uint_acc d 1).
  - apply (digits_value_of_uint_acc d 2).
  - apply (digits_value_of_uint_acc d 3).
  - apply (digits_value_of_uint_acc d 4).
  - apply (digits_value_of_uint_acc d 5).
  - apply (digits_value_of_uint_acc d 6).
  - apply (digits_value_of_uint_acc d 7).
  - apply (digits_value_of_uint_acc d 8).
  - apply (digits_value_of_uint_acc d 9).
Qed.

Lemma int_literal_pos (p : positive) :
  int_literal (NilEmpty.string_of_uint (Pos.to_uint p)) = Some (Z.pos p).
Proof.
  pose proof (DecimalPos.Unsigned.to_uint_nonnil p) as Hnil.
  pose proof (DecimalPos.Unsigned.of_to p) as Hval.
  pose proof (digits_value_of_uint (Pos.to_uint p) false (or_introl Hnil)) as H.
  rewrite Hval in H. cbn [Z.of_N] in H.
  destruct (Pos.to_uint p); [congruence|exact H..].
Qed.

Lemma string_of_uint_nonnil (d : Decimal.uint) :
  d <> Decimal.Nil -> NilZero.string_of_uint d = NilEmpty.string_of_uint d.
Proof. destruct d; [congruence|reflexivity..]. Qed.

Lemma int_literal_py_str (n : Z) : int_literal (py_str n) = Some n.
Proof.
  unfold py_str. destruct n as [|p|p]; [reflexivity|..];
    cbn [Z.to_int NilZero.string_of_int];
    rewrite (string_of_uint_nonnil _ (DecimalPos.Unsigned.to_uint_nonnil p)).
  - apply int_literal_pos.
  - pose proof (int_literal_pos p) as H.
    pose proof (DecimalPos.Unsigned.to_uint_nonnil p) as Hnil.
    cbn [int_literal]. 
    destruct (Pos.to_uint p); [congruence|..];
      cbn [NilEmpty.string_of_uint int_literal] in H |- *; rewrite H; reflexivity.
Qed.

Lemma no_space_py_str (n : Z) : no_space (py_str n) = true.
Proof.
  unfold py_str. destruct n as [|p|p]; [reflexivity|..];
    cbn [Z.to_int NilZero.string_of_int];
    rewrite (string_of_uint_nonnil _ (DecimalPos.Unsigned.to_uint_nonnil p)).
  - apply no_space_string_of_uint.
  - apply (no_space_string_of_uint (Pos.to_uint p)).
Qed.

Lemma py_int_py_str (n : Z) : py_int (py_strip (py_str n)) = Val n.
Proof.
  unfold py_int.
  rewrite !(py_strip_no_space _ (no_space_py_str n)).
  rewrite int_literal_py_str. reflexivity.
Qed.

(** ** The cursor store *)

(** The integer denoted by the cursor artifact of a directory. *)
Definition cursor_value (fs : gmap string string) : Z :=
  match fs !! STATE_FILE with
  | None => 0
  | Some text =>
      match py_int (py_strip text) with
      | Val n => n
      | _ => 0
      end
  end.

Lemma py_int_cases (s : string) :
  (exists n, py_int s = Val n) \/
  (exists msg, py_int s = Raise (PyExn ValueError msg)).
Proof. unfold py_int. destruct (int_literal _); eauto. Qed.

Lemma get_current_index_eq (w : world) :
  get_current_index w
  = (record (EvRead STATE_FILE) w, Val (cursor_value (files w))).
Proof.
  unfold get_current_index, try_except, bind, read_file, lift, ret, cursor_value.
  destruct (files w !! STATE_FILE) as [text|]; [|reflexivity].
  destruct (py_int_cases (py_strip text)) as [[n ->] | [msg ->]]; reflexivity.
Qed.

Lemma cursor_value_insert (fs : gmap string string) (n : Z) :
  cursor_value (<[STATE_FILE := py_str n]> fs) = n.
Proof.
  unfold cursor_value. rewrite lookup_insert_eq, py_int_py_str. reflexivity.
Qed.

Lemma cursor_value_ext (fs fs' : gmap string string) :
  fs' !! STATE_FILE = fs !! STATE_FILE -> cursor_value fs' = cursor_value fs.
Proof. unfold cursor_value. intros ->. reflexivity. Qed.

Section Protocol.

Variable E : environment.

Lemma update_current_index_ok (n : Z) (w : world) :
  open_w_fault E STATE_FILE = None ->
  update_current_index E n w
  = (set_files (<[STATE_FILE := py_str n]> (files w))
       (record (EvWrite STATE_FILE) w), Val tt).
Proof.
  intros H. unfold update_current_index, try_except, write_file. rewrite H.
  reflexivity.
Qed.

(** Writing the cursor and reading it back. *)
Lemma get_after_update (n : Z) (w : world) :
  open_w_fault E STATE_FILE = None ->
  exists w1 w2,
    update_current_index E n w = (w1, Val tt) /\
    get_current_index w1 = (w2, Val n).
Proof.
  intros H. eexists _, _. split.
  - apply update_current_index_ok, H.
  - rewrite get_current_index_eq. cbn [files set_files record].
    rewrite cursor_value_insert. reflexivity.
Qed.

(** *** Request classification *)

(** [(request.get_json() or {}).get("custom_params")] *)
Definition custom_params_of (request_json : json) : res json :=
  py_get (py_or request_json (JObj [])) "custom_params".

Definition custom_descriptor (custom_params : json) : json :=
  JObj [("index", JInt (-1)); ("custom_params", custom_params)].

Definition sequential_descriptor (i : Z) : json := JObj [("index", JInt i)].

Definition exhausted_response (i : Z) : response :=
  (JObj [("error", JStr "All samples generated"); ("index", JInt i)], 400).

Definition custom_chosen (custom_params : json) (w : world) : world :=
  record (EvLog INFO "Custom generation parameters validated successfully")
    (record (EvLog INFO ("Custom parameters: " +:+ json_dumps E custom_params))
       (record (EvLog INFO "Received custom parameter generation request") w)).

Definition sequential_chosen (w : world) : world :=
  record (EvLog INFO
            ("API received request. Triggering generation for index: "
             +:+ py_str (cursor_value (files w))))
    (record (EvRead STATE_FILE) w).

Lemma choose_job_custom (body cp : json) (w : world) :
  custom_params_of body = Val cp -> py_truthy cp = true ->
  choose_job E body w
  = (custom_chosen cp w, Val (inr (-1, custom_descriptor cp))).
Proof.
  unfold custom_params_of. intros Hget Htruthy.
  unfold choose_job, bind, lift. rewrite Hget, Htruthy. reflexivity.
Qed.

Lemma choose_job_sequential (body cp : json) (w : world) :
  custom_params_of body = Val cp -> py_truthy cp = false ->
  choose_job E body w
  = if cursor_value (files w) >=? get_total_samples
    then (record (EvRead STATE_FILE) w,
          Val (inl (exhausted_response (cursor_value (files w)))))
    else (sequential_chosen w,
          Val (inr (cursor_value (files w),
                    sequential_descriptor (cursor_value (files w))))).
Proof.
  unfold custom_params_of. intros Hget Hfalsy.
  unfold choose_job, bind, lift. rewrite Hget, Hfalsy, get_current_index_eq.
  destruct (cursor_value (files w) >=? get_total_samples); reflexivity.
Qed.

(** *** Publishing *)

Definition published (trigger_data : json) (w : world) : world :=
  {| files :=
       run_worker E 100 (clock w)
         (<[TRIGGER_FILE := json_dumps E trigger_data]>
            (delete trigger_tmp
               (<[trigger_tmp := json_dumps E trigger_data]> (files w))));
     clock := clock w + 100;
     events :=
       EvLog INFO ("Trigger data: " +:+ json_dumps E trigger_data)
       :: EvLog INFO ("Trigger file " +:+ TRIGGER_FILE +:+ " written.")
       :: EvSleep 100
       :: EvReplace trigger_tmp TRIGGER_FILE
       :: EvWrite trigger_tmp
       :: events w |}.

Lemma publish_trigger_ok (trigger_data : json) (w : world) :
  open_w_fault E trigger_tmp = None ->
  replace_fault E trigger_tmp TRIGGER_FILE = None ->
  publish_trigger E trigger_data w = (published trigger_data w, Val None).
Proof.
  intros Hw Hr.
  unfold publish_trigger, try_except, bind, write_file, os_replace.
  rewrite Hw. cbn [files set_files record].
  rewrite lookup_insert_eq, Hr. reflexivity.
Qed.

(** *** The wait loop *)

(** One turn of the loop that finds no result: the existence check, then
    [time.sleep(CHECK_INTERVAL)], during which the worker runs. *)
Definition idle_turn (path : string) (w : world) : world :=
  {| files := worker E (clock w) (files w);
     clock := clock w + CHECK_INTERVAL;
     events := EvSleep CHECK_INTERVAL :: EvExists path :: events w |}.

Fixpoint idle (n : nat) (path : string) (w : world) : world :=
  match n with
  | O => w
  | S n' => idle n' path (idle_turn path w)
  end.

(** The result file is missing at each of the next [n] existence checks. *)
Fixpoint absent_for (n : nat) (path : string) (w : world) : bool :=
  match n with
  | O => true
  | S n' =>
      match files w !! path with
      | None => absent_for n' path (idle_turn path w)
      | Some _ => false
      end
  end.

Lemma clock_idle (n : nat) (path : string) (w : world) :
  clock (idle n path w) = clock w + Z.of_nat n.
Proof.
  revert w. induction n as [|n IH]; intros w; cbn [idle].
  - lia.
  - rewrite IH. unfold idle_turn, CHECK_INTERVAL. cbn [clock]. lia.
Qed.

Lemma wait_loop_absent (fuel : nat) (start i : Z) (path : string) (w : world) :
  clock w - start < MAX_WAIT_TIME ->
  files w !! path = None ->
  wait_loop E (S fuel) start i path w
  = wait_loop E fuel start i path (idle_turn path w).
Proof.
  intros Ht Hf. cbn [wait_loop]. unfold bind at 1, time_time.
  apply Z.ltb_lt in Ht. rewrite Ht.
  unfold bind at 1, os_path_exists. rewrite Hf.
  unfold bind at 1. reflexivity.
Qed.

Lemma wait_loop_found (fuel : nat) (start i : Z) (path text : string)
    (w : world) :
  clock w - start < MAX_WAIT_TIME ->
  files w !! path = Some text ->
  wait_loop E (S fuel) start i path w
  = bind (try_except (consume_result E i path) [Exception]
            (discard_result E path))
      (fun r => ret (Some r)) (record (EvExists path) w).
Proof.
  intros Ht Hf. cbn [wait_loop]. unfold bind at 1, time_time.
  apply Z.ltb_lt in Ht. rewrite Ht.
  unfold bind at 1, os_path_exists. rewrite Hf. reflexivity.
Qed.

Lemma wait_loop_idle (n fuel : nat) (start i : Z) (path : string) (w : world) :
  clock w - start + Z.of_nat n <= MAX_WAIT_TIME ->
  absent_for n path w = true ->
  wait_loop E (n + fuel) start i path w
  = wait_loop E fuel start i path (idle n path w).
Proof.
  revert w. induction n as [|n IH]; intros w Ht Ha; [reflexivity|].
  cbn [absent_for] in Ha. destruct (files w !! path) eqn:Hf; [discriminate|].
  cbn [Nat.add idle]. rewrite wait_loop_absent by (assumption || lia).
  apply IH; [|assumption].
  unfold idle_turn, CHECK_INTERVAL. cbn [clock]. lia.
Qed.

Lemma wait_loop_expired (fuel : nat) (start i : Z) (path : string) (w : world) :
  MAX_WAIT_TIME <= clock w - start ->
  wait_loop E (S fuel) start i path w = (w, Val None).
Proof.
  intros Ht. cbn [wait_loop]. unfold bind at 1, time_time.
  apply Z.ltb_ge in Ht. rewrite Ht. reflexivity.
Qed.

Lemma caught_by_Exception (e : pyexn) : caught_by [Exception] e = true.
Proof. destruct e as [[] msg]; reflexivity. Qed.

(** The world after a result was read, removed and, in sequential mode,
    the cursor advanced. *)
Definition removed (path : string) (w : world) : world :=
  record (EvLog INFO ("Result file " +:+ path +:+ " removed."))
    (set_files (delete path (files w))
       (record (EvRemove path)
          (record (EvLog INFO ("Result file found and read: " +:+ path))
             (record (EvRead path) (record (EvExists path) w))))).

Definition consumed (i : Z) (path : string) (w : world) : world :=
  if i =? -1 then removed path w
  else
    record (EvLog INFO ("Index updated to " +:+ py_str (i + 1)))
      (set_files (<[STATE_FILE := py_str (i + 1)]> (files (removed path w)))
         (record (EvWrite STATE_FILE) (removed path w))).

Lemma wait_loop_consumes (fuel : nat) (start i : Z) (path text : string)
    (w : world) (r : json) (has_error : bool) :
  clock w - start < MAX_WAIT_TIME ->
  files w !! path = Some text ->
  json_load E text = inl r ->
  py_in "error" r = Val has_error ->
  remove_fault E path = None ->
  (i = -1 \/ open_w_fault E STATE_FILE = None) ->
  wait_loop E (S fuel) start i path w
  = (consumed i path w, Val (Some (r, if has_error then 500 else 200))).
Proof.
  intros Ht Hf Hload Hin Hrm Hst. cbn [wait_loop]. unfold bind at 1, time_time.
  apply Z.ltb_lt in Ht. rewrite Ht.
  unfold bind at 1, os_path_exists. rewrite Hf.
  unfold bind at 1, try_except, consume_result.
  unfold bind at 1, read_file. cbn [files record]. rewrite Hf.
  unfold bind at 1, load_json. rewrite Hload. unfold ret at 1.
  unfold bind at 1, logger at 1.
  unfold bind at 1, os_remove. cbn [files record]. rewrite Hf, Hrm.
  unfold bind at 1, logger at 1.
  unfold consumed.
  destruct Hst as [-> | Hst].
  - cbn [Z.eqb Pos.eqb negb]. unfold bind, ret, lift. rewrite Hin.
    destruct has_error; reflexivity.
  - destruct (i =? -1) eqn:Hi.
    + cbn [negb]. unfold bind, ret, lift. rewrite Hin.
      destruct has_error; reflexivity.
    + cbn [negb]. unfold bind at 1. unfold bind at 1.
      rewrite (update_current_index_ok _ _ Hst).
      unfold logger, bind, ret, lift. rewrite Hin.
      destruct has_error; reflexivity.
Qed.

(** The world after a result that could not be read was discarded. *)
Definition discarded (path : string) (e : pyexn) (w : world) : world :=
  let w1 :=
    record (EvRemove path)
      (record (EvExists path)
         (record (EvLog ERROR (format_exc E e))
            (record (EvLog ERROR ("Error reading/parsing result file "
                                  +:+ path +:+ ": " +:+ exn_str e))
               (record (EvRead path) (record (EvExists path) w))))) in
  match remove_fault E path with
  | None => set_files (delete path (files w)) w1
  | Some remove_e =>
      record (EvLog WARNING ("Failed to remove corrupted result file: "
                             +:+ exn_str remove_e)) w1
  end.

Definition corrupt_response (e : pyexn) : response :=
  (JObj [("error", JStr ("Error processing result: " +:+ exn_str e))], 500).

Lemma wait_loop_corrupt (fuel : nat) (start i : Z) (path text : string)
    (w : world) (e : pyexn) :
  clock w - start < MAX_WAIT_TIME ->
  files w !! path = Some text ->
  json_load E text = inr e ->
  wait_loop E (S fuel) start i path w
  = (discarded path e w, Val (Some (corrupt_response e))).
Proof.
  intros Ht Hf Hload. cbn [wait_loop]. unfold bind at 1, time_time.
  apply Z.ltb_lt in Ht. rewrite Ht.
  unfold bind at 1, os_path_exists. rewrite Hf.
  unfold bind at 1, try_except at 1, consume_result.
  unfold bind at 1, read_file. cbn [files record]. rewrite Hf.
  unfold bind at 1, load_json. rewrite Hload. unfold raise at 1.
  rewrite caught_by_Exception.
  unfold discarded, discard_result, bind, logger, os_path_exists, try_except,
    os_remove, ret.
  repeat (progress (cbn [files record]; rewrite ?Hf)).
  destruct (remove_fault E path) as [remove_e|]; [|reflexivity].
  rewrite caught_by_Exception. reflexivity.
Qed.

(** *** Timeout handling *)

Definition timeout_response : response :=
  (JObj [("error", JStr "Timeout waiting for video generation")], 500).

Definition timed_out (w : world) : world :=
  let w1 := record (EvExists TRIGGER_FILE) w in
  match files w !! TRIGGER_FILE with
  | None => w1
  | Some _ =>
      match remove_fault E TRIGGER_FILE with
      | None =>
          record (EvLog INFO ("Removed stale trigger file " +:+ TRIGGER_FILE
                              +:+ " due to timeout."))
            (set_files (delete TRIGGER_FILE (files w))
               (record (EvRemove TRIGGER_FILE) w1))
      | Some e =>
          record (EvLog WARNING ("Could not remove stale trigger file "
                                 +:+ TRIGGER_FILE +:+ ": " +:+ exn_str e))
            (record (EvRemove TRIGGER_FILE) w1)
      end
  end.

Lemma timeout_cleanup_eq (w : world) :
  timeout_cleanup E w = (timed_out w, Val timeout_response).
Proof.
  unfold timeout_cleanup, timed_out, bind, os_path_exists, try_except,
    os_remove, logger, ret.
  cbn [files record].
  destruct (files w !! TRIGGER_FILE) as [text|] eqn:Hf; [|reflexivity].
  repeat (progress (cbn [files record]; rewrite ?Hf)).
  destruct (remove_fault E TRIGGER_FILE) as [e|]; [|reflexivity].
  rewrite caught_by_Exception. reflexivity.
Qed.

(** *** Waiting, from the loop's start *)

Lemma MAX_WAIT_TIME_pos : 0 < MAX_WAIT_TIME.
Proof. reflexivity. Qed.

Lemma wait_loop_from_start (k : nat) (i : Z) (path : string) (w : world) :
  Z.of_nat k <= MAX_WAIT_TIME ->
  absent_for k path w = true ->
  wait_loop E POLL_FUEL (clock w) i path w
  = wait_loop E (S (Z.to_nat MAX_WAIT_TIME - k)) (clock w) i path
      (idle k path w).
Proof.
  intros Hk Ha.
  replace POLL_FUEL with (k + S (Z.to_nat MAX_WAIT_TIME - k))%nat
    by (unfold POLL_FUEL; lia).
  apply wait_loop_idle; [lia|assumption].
Qed.

Lemma await_result_consumes (k : nat) (i : Z) (text : string) (w : world)
    (r : json) (has_error : bool) :
  let path := result_file_path i in
  Z.of_nat k < MAX_WAIT_TIME ->
  absent_for k path w = true ->
  files (idle k path w) !! path = Some text ->
  json_load E text = inl r ->
  py_in "error" r = Val has_error ->
  remove_fault E path = None ->
  (i = -1 \/ open_w_fault E STATE_FILE = None) ->
  await_result E i w
  = (consumed i path (idle k path w),
     Val (r, if has_error then 500 else 200)).
Proof.
  intros path Hk Ha Hf Hload Hin Hrm Hst.
  unfold await_result, bind at 1, time_time. fold path.
  unfold bind at 1. rewrite (wait_loop_from_start k) by (assumption || lia).
  rewrite (wait_loop_consumes _ _ _ _ text _ r has_error);
    try assumption; [reflexivity|].
  rewrite clock_idle. lia.
Qed.

Lemma await_result_corrupt (k : nat) (i : Z) (text : string) (w : world)
    (e : pyexn) :
  let path := result_file_path i in
  Z.of_nat k < MAX_WAIT_TIME ->
  absent_for k path w = true ->
  files (idle k path w) !! path = Some text ->
  json_load E text = inr e ->
  await_result E i w
  = (discarded path e (idle k path w), Val (corrupt_response e)).
Proof.
  intros path Hk Ha Hf Hload.
  unfold await_result, bind at 1, time_time. fold path.
  unfold bind at 1. rewrite (wait_loop_from_start k) by (assumption || lia).
  rewrite (wait_loop_corrupt _ _ _ _ text _ e); try assumption; [reflexivity|].
  rewrite clock_idle. lia.
Qed.

Lemma await_result_timeout (i : Z) (w : world) :
  let path := result_file_path i in
  absent_for (Z.to_nat MAX_WAIT_TIME) path w = true ->
  await_result E i w
  = (timed_out (idle (Z.to_nat MAX_WAIT_TIME) path w), Val timeout_response).
Proof.
  intros path Ha. pose proof MAX_WAIT_TIME_pos as Hpos.
  unfold await_result, bind at 1, time_time. fold path.
  unfold bind at 1.
  rewrite (wait_loop_from_start (Z.to_nat MAX_WAIT_TIME))
    by (assumption || lia).
  rewrite wait_loop_expired by (rewrite clock_idle; lia).
  apply timeout_cleanup_eq.
Qed.

(** *** The whole handler, once the job is chosen and published *)

Lemma generate_next_published (body : json) (w w1 : world) (i : Z)
    (trigger_data : json) :
  choose_job E body w = (w1, Val (inr (i, trigger_data))) ->
  open_w_fault E trigger_tmp = None ->
  replace_fault E trigger_tmp TRIGGER_FILE = None ->
  generate_next E body w = await_result E i (published trigger_data w1).
Proof.
  intros Hjob Hw Hr. unfold generate_next, bind at 1. rewrite Hjob.
  unfold bind at 1. rewrite publish_trigger_ok by assumption. reflexivity.
Qed.

(** ** Footprint and termination of the handler *)

Section Keeps.

Variable R : world -> world -> Prop.
Hypothesis R_refl : forall w, R w w.
Hypothesis R_trans : forall a b c, R a b -> R b c -> R a c.

(** [m] relates every world to the one it leaves behind, and never runs
    out of fuel. *)
Definition keeps {A} (m : M A) : Prop :=
  forall w, R w (fst (m w)) /\ snd (m w) <> OutOfFuel.

Lemma keeps_ret {A} (a : A) : keeps (ret a).
Proof. intros w. split; [apply R_refl|discriminate]. Qed.

Lemma keeps_raise {A} (e : pyexn) : keeps (@raise A e).
Proof. intros w. split; [apply R_refl|discriminate]. Qed.

Lemma keeps_lift {A} (r : res A) : r <> OutOfFuel -> keeps (lift r).
Proof. intros Hr w. split; [apply R_refl|exact Hr]. Qed.

Lemma keeps_bind {A B} (m : M A) (k : A -> M B) :
  keeps m -> (forall a, keeps (k a)) -> keeps (bind m k).
Proof.
  intros Hm Hk w. unfold bind. destruct (Hm w) as [Hw Hr].
  destruct (m w) as [w1 [a|e|]]; cbn [fst snd] in *.
  - destruct (Hk a w1) as [Hw1 Hr1]. split; [|exact Hr1].
    eapply R_trans; eassumption.
  - split; [exact Hw|discriminate].
  - congruence.
Qed.

Lemma keeps_try_except {A} (body : M A) (classes : list exn_class)
    (handler : pyexn -> M A) :
  keeps body -> (forall e, keeps (handler e)) ->
  keeps (try_except body classes handler).
Proof.
  intros Hm Hh w. unfold try_except. destruct (Hm w) as [Hw Hr].
  destruct (body w) as [w1 [a|e|]]; cbn [fst snd] in *.
  - split; assumption.
  - destruct (caught_by classes e).
    + destruct (Hh e w1) as [Hw1 Hr1]. split; [|exact Hr1].
      eapply R_trans; eassumption.
    + split; [exact Hw|discriminate].
  - congruence.
Qed.

End Keeps.

(** Events that read or change the artifact at [p]. *)
Definition touches (p : string) (e : event) : bool :=
  match e with
  | EvExists q | EvRead q | EvWrite q | EvRemove q => String.eqb p q
  | EvReplace src dst => String.eqb p src || String.eqb p dst
  | EvSleep _ | EvLog _ _ => false
  end.

(** Events that change the artifact at [p]. *)
Definition mutates (p : string) (e : event) : bool :=
  match e with
  | EvWrite q | EvRemove q => String.eqb p q
  | EvReplace src dst => String.eqb p src || String.eqb p dst
  | EvExists _ | EvRead _ | EvSleep _ | EvLog _ _ => false
  end.

Definition untouched (p : string) (tr : list event) : bool :=
  forallb (fun e => negb (touches p e)) tr.

Definition unchanged (p : string) (tr : list event) : bool :=
  forallb (fun e => negb (mutates p e)) tr.

(** The worker never creates, changes or deletes the artifact at [p]. *)
Definition worker_keeps (p : string) : Prop :=
  forall t fs, worker E t fs !! p = fs !! p.

Lemma run_worker_keeps (p : string) (n : nat) (t : Z) (fs : gmap string string) :
  worker_keeps p -> run_worker E n t fs !! p = fs !! p.
Proof.
  intros Hk. revert t fs. induction n as [|n IH]; intros t fs; [reflexivity|].
  cbn [run_worker]. rewrite IH. apply Hk.
Qed.

Lemma idle_keeps (p path : string) (n : nat) (w : world) :
  worker_keeps p -> files (idle n path w) !! p = files w !! p.
Proof.
  intros Hk. revert w. induction n as [|n IH]; intros w; [reflexivity|].
  cbn [idle]. rewrite IH. apply Hk.
Qed.

Section Footprint.

Variable p : string.

(** From [w] to [w'] the handler performed no operation on [p], and [p]
    holds what it held unless the worker changed it. *)
Definition leaves (w w' : world) : Prop :=
  (exists tr, events w' = (tr ++ events w)%list /\ untouched p tr = true) /\
  (worker_keeps p -> files w' !! p = files w !! p).

Lemma leaves_refl (w : world) : leaves w w.
Proof. split; [exists []; split; reflexivity | reflexivity]. Qed.

Lemma leaves_trans (a b c : world) : leaves a b -> leaves b c -> leaves a c.
Proof.
  intros [(tr1 & He1 & Hu1) Hf1] [(tr2 & He2 & Hu2) Hf2]. split.
  - exists (tr2 ++ tr1)%list. split.
    + rewrite He2, He1. apply app_assoc.
    + unfold untouched in *. rewrite forallb_app, Hu1, Hu2. reflexivity.
  - intros Hk. rewrite (Hf2 Hk). apply Hf1, Hk.
Qed.

Lemma leaves_event (w w' : world) (ev : event) :
  events w' = ev :: events w -> touches p ev = false ->
  files w' !! p = files w !! p -> leaves w w'.
Proof.
  intros He Ht Hf. split; [|intros _; exact Hf].
  exists [ev]. split; [exact He|]. cbn. rewrite Ht. reflexivity.
Qed.

Lemma touches_path (q : string) : q <> p -> String.eqb p q = false.
Proof. intros H. apply String.eqb_neq. congruence. Qed.

Definition frames {A} (m : M A) : Prop := keeps leaves m.

Lemma frames_logger (level : log_level) (message : string) :
  frames (logger level message).
Proof.
  intros w. split; [|discriminate].
  eapply leaves_event; reflexivity.
Qed.

Lemma frames_time_time : frames time_time.
Proof. intros w. split; [apply leaves_refl|discriminate]. Qed.

Lemma frames_time_sleep (seconds : Z) : frames (time_sleep E seconds).
Proof.
  intros w. unfold time_sleep. destruct (seconds <? 0); cbn [fst snd].
  - split; [apply leaves_refl|discriminate].
  - split; [|discriminate]. split.
    + exists [EvSleep seconds]. split; reflexivity.
    + intros Hk. cbn [files]. apply run_worker_keeps, Hk.
Qed.

Lemma frames_exists (q : string) : q <> p -> frames (os_path_exists q).
Proof.
  intros Hq w. split; [|discriminate].
  eapply leaves_event; [reflexivity| |reflexivity]. apply touches_path, Hq.
Qed.

Lemma frames_read (q : string) : q <> p -> frames (read_file q).
Proof.
  intros Hq w. unfold read_file.
  destruct (files w !! q); cbn [fst snd]; (split; [|discriminate]);
    (eapply leaves_event; [reflexivity| |reflexivity]); apply touches_path, Hq.
Qed.

Lemma frames_write (q text : string) : q <> p -> frames (write_file E q text).
Proof.
  intros Hq w. unfold write_file.
  destruct (open_w_fault E q); cbn [fst snd]; (split; [|discriminate]).
  - eapply leaves_event; [reflexivity| |reflexivity]. apply touches_path, Hq.
  - eapply leaves_event; [reflexivity| |].
    + apply touches_path, Hq.
    + cbn [files set_files record]. apply lookup_insert_ne, Hq.
Qed.

Lemma frames_remove (q : string) : q <> p -> frames (os_remove E q).
Proof.
  intros Hq w. unfold os_remove.
  destruct (files w !! q); [destruct (remove_fault E q)|]; cbn [fst snd];
    (split; [|discriminate]);
    (eapply leaves_event; [reflexivity| |]);
    try (apply touches_path, Hq); try reflexivity.
  cbn [files set_files record]. apply lookup_delete_ne, Hq.
Qed.

Lemma frames_replace (src dst : string) :
  src <> p -> dst <> p -> frames (os_replace E src dst).
Proof.
  intros Hs Hd w. unfold os_replace.
  assert (Ht : touches p (EvReplace src dst) = false).
  { cbn. rewrite (touches_path _ Hs), (touches_path _ Hd). reflexivity. }
  destruct (files w !! src); [destruct (replace_fault E src dst)|];
    cbn [fst snd]; (split; [|discriminate]);
    (eapply leaves_event; [reflexivity|exact Ht|]); try reflexivity.
  cbn [files set_files record].
  rewrite lookup_insert_ne by exact Hd. apply lookup_delete_ne, Hs.
Qed.

End Footprint.

(** *** The loop keeps whatever its parts keep *)

Section LoopKeeps.

Variable R : world -> world -> Prop.
Hypothesis R_refl : forall w, R w w.
Hypothesis R_trans : forall a b c, R a b -> R b c -> R a c.

Variables (start i : Z) (path : string).

Hypothesis exists_keeps : keeps R (os_path_exists path).
Hypothesis sleep_keeps : keeps R (time_sleep E CHECK_INTERVAL).
Hypothesis found_keeps :
  keeps R (try_except (consume_result E i path) [Exception]
             (discard_result E path)).

Lemma wait_loop_keeps (fuel : nat) (w : world) :
  R w (fst (wait_loop E fuel start i path w)) /\
  (Z.max 0 (MAX_WAIT_TIME - (clock w - start)) < Z.of_nat fuel ->
   snd (wait_loop E fuel start i path w) <> OutOfFuel).
Proof.
  revert w. induction fuel as [|fuel IH]; intros w.
  { split; [apply R_refl|]. cbn [Z.of_nat]. lia. }
  destruct (Z.ltb_spec (clock w - start) MAX_WAIT_TIME) as [Hlt|Hge].
  - destruct (files w !! path) as [text|] eqn:Hf.
    + pose proof (exists_keeps w) as [Hex _].
      pose proof (found_keeps (record (EvExists path) w)) as [Hfound Htot].
      rewrite (wait_loop_found _ _ _ _ text) by assumption.
      unfold os_path_exists in Hex. cbn [fst] in Hex.
      unfold bind.
      destruct (try_except _ _ _ _) as [w2 [r|e|]]; unfold ret;
        cbn [fst snd] in *.
      * split; [eapply R_trans; eassumption|intros _; discriminate].
      * split; [eapply R_trans; eassumption|intros _; discriminate].
      * congruence.
    + rewrite wait_loop_absent by assumption.
      destruct (IH (idle_turn path w)) as [HR Htot].
      pose proof (exists_keeps w) as [Hex _].
      pose proof (sleep_keeps (record (EvExists path) w)) as [Hsl _].
      split.
      * eapply R_trans; [|exact HR]. eapply R_trans; [exact Hex|exact Hsl].
      * intros Hfuel. apply Htot.
        unfold idle_turn, CHECK_INTERVAL. cbn [clock]. lia.
  - rewrite wait_loop_expired by lia. cbn [fst snd].
    split; [apply R_refl|intros _; discriminate].
Qed.

End LoopKeeps.

(** *** Termination *)

Definition always (_ _ : world) : Prop := True.

Definition productive {A} (m : M A) : Prop := keeps always m.

Lemma always_trans (a b c : world) : always a b -> always b c -> always a c.
Proof. intros _ _. exact I. Qed.

Lemma productive_prim {A} (m : M A) :
  (forall w, snd (m w) <> OutOfFuel) -> productive m.
Proof. intros H w. split; [exact I|apply H]. Qed.

Lemma py_in_total (key : string) (container : json) :
  py_in key container <> OutOfFuel.
Proof. destruct container; discriminate. Qed.

Lemma py_get_total (d : json) (key : string) : py_get d key <> OutOfFuel.
Proof. destruct d; discriminate. Qed.

Lemma py_int_total (s : string) : py_int s <> OutOfFuel.
Proof. unfold py_int. destruct (int_literal _); discriminate. Qed.

End Protocol.

Ltac prim_total :=
  apply productive_prim; intros ?;
  unfold logger, time_time, time_sleep, os_path_exists, read_file, write_file,
    os_remove, os_replace, load_json, ret, raise, lift;
  repeat case_match; cbn [snd]; first [discriminate | assumption].

Ltac productive_step :=
  first
    [ apply keeps_ret; exact (fun _ => I)
    | apply keeps_raise; exact (fun _ => I)
    | apply keeps_bind; [exact always_trans| |intros ?]
    | apply keeps_try_except; [exact always_trans| |intros ?]
    | apply keeps_lift; [exact (fun _ => I)|]
    | apply py_in_total | apply py_get_total | apply py_int_total
    | match goal with
      | |- keeps _ (if ?b then _ else _) => destruct b
      | |- keeps _ (match ?x with _ => _ end) => destruct x
      | |- keeps _ (let (_, _) := ?x in _) => destruct x
      end
    | prim_total ].

Section Termination.

Variable E : environment.

Lemma get_current_index_productive : productive get_current_index.
Proof. unfold get_current_index. repeat productive_step. Qed.

Lemma update_current_index_productive (n : Z) :
  productive (update_current_index E n).
Proof. unfold update_current_index. repeat productive_step. Qed.

Lemma found_productive (i : Z) (path : string) :
  productive (try_except (consume_result E i path) [Exception]
                (discard_result E path)).
Proof.
  unfold consume_result, discard_result, update_current_index.
  repeat productive_step.
Qed.

Lemma timeout_cleanup_productive : productive (timeout_cleanup E).
Proof. unfold timeout_cleanup. repeat productive_step. Qed.

Lemma publish_trigger_productive (trigger_data : json) :
  productive (publish_trigger E trigger_data).
Proof. unfold publish_trigger. repeat productive_step. Qed.

Lemma choose_job_productive (body : json) : productive (choose_job E body).
Proof.
  unfold choose_job, get_current_index. cbn [missing_fields_of].
  repeat productive_step.
Qed.

Lemma await_result_productive (i : Z) : productive (await_result E i).
Proof.
  intros w. split; [exact I|].
  unfold await_result, bind at 1, time_time. unfold bind at 1.
  pose proof (wait_loop_keeps E always (fun _ => I) always_trans (clock w) i
                (result_file_path i)
                ltac:(prim_total) ltac:(prim_total) (found_productive i _)
                POLL_FUEL w) as [_ Htot].
  destruct (wait_loop E POLL_FUEL _ _ _ w) as [w1 [[r|]|e|]]; cbn [snd] in *.
  - discriminate.
  - apply timeout_cleanup_productive.
  - discriminate.
  - exfalso. apply Htot; [|reflexivity].
    unfold POLL_FUEL. pose proof MAX_WAIT_TIME_pos. lia.
Qed.

(** The handler always answers: with a response or with an exception that
    Flask turns into one; the loop never runs out of fuel. *)
Lemma generate_next_productive (body : json) : productive (generate_next E body).
Proof.
  unfold generate_next.
  apply keeps_bind; [exact always_trans|apply choose_job_productive|].
  intros [early|[i trigger_data]]; [productive_step|].
  apply keeps_bind; [exact always_trans|apply publish_trigger_productive|].
  intros [early|]; [productive_step|apply await_result_productive].
Qed.

End Termination.

(** *** Custom mode leaves the cursor alone *)

Ltac frame_step :=
  first
    [ apply keeps_ret; apply leaves_refl
    | apply keeps_raise; apply leaves_refl
    | apply keeps_bind; [apply leaves_trans| |intros ?]
    | apply keeps_try_except; [apply leaves_trans| |intros ?]
    | apply keeps_lift; [apply leaves_refl|]
    | apply py_in_total | apply py_get_total | apply py_int_total
    | apply frames_logger | apply frames_time_time | apply frames_time_sleep
    | apply frames_exists | apply frames_read | apply frames_write
    | apply frames_remove | apply frames_replace
    | apply result_path_not_state | exact trigger_not_state
    | exact tmp_not_state | assumption
    | match goal with
      | |- keeps _ (if ?b then _ else _) => destruct b
      | |- keeps _ (match ?x with _ => _ end) => destruct x
      end ].

Section CustomFrame.

Variable E : environment.

Lemma await_result_keeps (R : world -> world -> Prop) (i : Z) :
  (forall w, R w w) ->
  (forall a b c, R a b -> R b c -> R a c) ->
  keeps R (os_path_exists (result_file_path i)) ->
  keeps R (time_sleep E CHECK_INTERVAL) ->
  keeps R (try_except (consume_result E i (result_file_path i)) [Exception]
             (discard_result E (result_file_path i))) ->
  keeps R (timeout_cleanup E) ->
  keeps R (await_result E i).
Proof.
  intros R_refl R_trans Hex Hsl Hfound Hto w.
  unfold await_result, bind at 1, time_time. unfold bind.
  pose proof (wait_loop_keeps E R R_refl R_trans (clock w) i
                (result_file_path i) Hex Hsl Hfound POLL_FUEL w) as [HR Htot].
  destruct (wait_loop E POLL_FUEL _ _ _ w) as [w1 [[r|]|e|]];
    unfold ret; cbn [fst snd] in *.
  - split; [exact HR|discriminate].
  - destruct (Hto w1) as [HR1 Htot1]. split; [|exact Htot1].
    eapply R_trans; eassumption.
  - split; [exact HR|discriminate].
  - exfalso. apply Htot; [|reflexivity].
    unfold POLL_FUEL. pose proof MAX_WAIT_TIME_pos. lia.
Qed.

Lemma publish_trigger_frames (trigger_data : json) :
  frames E STATE_FILE (publish_trigger E trigger_data).
Proof. unfold frames, publish_trigger. repeat frame_step. Qed.

Lemma found_custom_frames :
  frames E STATE_FILE
    (try_except (consume_result E (-1) (result_file_path (-1))) [Exception]
       (discard_result E (result_file_path (-1)))).
Proof.
  unfold frames, consume_result, discard_result, load_json.
  change (negb (-1 =? -1)) with false. cbv iota.
  repeat frame_step.
Qed.

Lemma timeout_cleanup_frames : frames E STATE_FILE (timeout_cleanup E).
Proof. unfold frames, timeout_cleanup. repeat frame_step. Qed.

Lemma await_custom_frames : frames E STATE_FILE (await_result E (-1)).
Proof.
  apply await_result_keeps.
  - apply leaves_refl.
  - apply leaves_trans.
  - apply frames_exists, result_path_not_state.
  - apply frames_time_sleep.
  - apply found_custom_frames.
  - apply timeout_cleanup_frames.
Qed.

Lemma custom_chosen_leaves (cp : json) (w : world) :
  leaves E STATE_FILE w (custom_chosen E cp w).
Proof.
  split; [|reflexivity].
  eexists [_; _; _]. split; reflexivity.
Qed.

End CustomFrame.

(** * A concrete environment for the examples

    A reader and a writer for the JSON fragment the examples use: [null],
    booleans, integers, strings without escapes, arrays and objects.  On
    that fragment they agree with [json.load] and with
    [json.dump(..., indent=2, ensure_ascii=False)].  The reader refuses
    every other text; its message is Python's when the text cannot even
    start a value.  The writer is exact on zeros, infinities and NaN among
    the floats and writes every other float as NaN. *)

Module MiniJson.

Definition dquote : ascii := ascii_of_N 34.
Definition newline : ascii := ascii_of_N 10.

Definition quoted (s : string) : string :=
  String dquote (s +:+ String dquote EmptyString).

Definition is_ws (a : ascii) : bool :=
  let n := N_of_ascii a in
  ((n =? 32) || (n =? 9) || (n =? 10) || (n =? 13))%N.

Fixpoint skip_ws (s : string) : string :=
  match s with
  | String a s' => if is_ws a then skip_ws s' else s
  | EmptyString => EmptyString
  end.

(** The characters of a string literal after its opening quote. *)
Fixpoint string_body (s : string) : option (string * string) :=
  match s with
  | EmptyString => None
  | String a s' =>
      if Ascii.eqb a dquote then Some (EmptyString, s')
      else if Ascii.eqb a "\" || (N_of_ascii a <? 32)%N then None
      else
        match string_body s' with
        | Some (body, rest) => Some (String a body, rest)
        | None => None
        end
  end.

Fixpoint digits (acc : Z) (s : string) : Z * string :=
  match s with
  | String a s' =>
      match digit_value a with
      | Some d => digits (10 * acc + d) s'
      | None => (acc, s)
      end
  | EmptyString => (acc, s)
  end.

(** An integer literal; a fraction or an exponent is outside the fragment. *)
Definition number (s : string) : option (Z * string) :=
  let '(negative, s1) :=
    match s with
    | String "-" s' => (true, s')
    | _ => (false, s)
    end in
  match s1 with
  | String a s2 =>
      match digit_value a with
      | Some d =>
          let '(n, rest) := if d =? 0 then (0, s2) else digits d s2 in
          match rest with
          | String "." _ | String "e" _ | String "E" _ => None
          | _ => Some (if negative then - n else n, rest)
          end
      | None => None
      end
  | EmptyString => None
  end.

(** A dict keeps one value per key: the last one read. *)
Fixpoint dict_set (key : string) (v : json) (members : list (string * json))
  : list (string * json) :=
  match members with
  | [] => [(key, v)]
  | (k, old) :: rest =>
      if String.eqb k key then (k, v) :: rest
      else (k, old) :: dict_set key v rest
  end.

Fixpoint value (fuel : nat) (s : string) : option (json * string) :=
  match fuel with
  | O => None
  | S fuel' =>
      match skip_ws s with
      | String "n" (String "u" (String "l" (String "l" rest))) =>
          Some (JNull, rest)
      | String "t" (String "r" (String "u" (String "e" rest))) =>
          Some (JBool true, rest)
      | String "f" (String "a" (String "l" (String "s" (String "e" rest)))) =>
          Some (JBool false, rest)
      | String "[" rest =>
          match skip_ws rest with
          | String "]" rest' => Some (JArr [], rest')
          | _ => elements fuel' [] rest
          end
      | String "{" rest =>
          match skip_ws rest with
          | String "}" rest' => Some (JObj [], rest')
          | _ => members fuel' [] rest
          end
      | String a rest =>
          if Ascii.eqb a dquote then
            match string_body rest with
            | Some (body, rest') => Some (JStr body, rest')
            | None => None
            end
          else
            match number (String a rest) with
            | Some (n, rest') => Some (JInt n, rest')
            | None => None
            end
      | EmptyString => None
      end
  end
with elements (fuel : nat) (acc : list json) (s : string)
  : option (json * string) :=
  match fuel with
  | O => None
  | S fuel' =>
      match value fuel' s with
      | Some (v, rest) =>
          match skip_ws rest with
          | String "," rest' => elements fuel' (acc ++ [v]) rest'
          | String "]" rest' => Some (JArr (acc ++ [v]), rest')
          | _ => None
          end
      | None => None
      end
  end
with members (fuel : nat) (acc : list (string * json)) (s : string)
  : option (json * string) :=
  match fuel with
  | O => None
  | S fuel' =>
      match skip_ws s with
      | String a rest =>
          if Ascii.eqb a dquote then
            match string_body rest with
            | Some (key, rest1) =>
                match skip_ws rest1 with
                | String ":" rest2 =>
                    match value fuel' rest2 with
                    | Some (v, rest3) =>
                        match skip_ws rest3 with
                        | String "," rest4 =>
                            members fuel' (dict_set key v acc) rest4
                        | String "}" rest4 =>
                            Some (JObj (dict_set key v acc), rest4)
                        | _ => None
                        end
                    | None => None
                    end
                | _ => None
                end
            | None => None
            end
          else None
      | EmptyString => None
      end
  end.

(** No JSON value starts with the first character of [text]. *)
Definition starts_no_value (text : string) : bool :=
  match text with
  | EmptyString => true
  | String a _ =>
      negb (is_ws a || Ascii.eqb a dquote || Ascii.eqb a "{" || Ascii.eqb a "["
            || Ascii.eqb a "-"
            || match digit_value a with Some _ => true | None => false end
            || starts_with "null" text || starts_with "true" text
            || starts_with "false" text || starts_with "NaN" text
            || starts_with "Infinity" text)
  end.

Definition loads (text : string) : json + pyexn :=
  match value (2 * String.length text + 2) text with
  | Some (v, rest) =>
      match skip_ws rest with
      | EmptyString => inl v
      | _ => inr (PyExn JSONDecodeError "Extra data")
      end
  | None =>
      inr (PyExn JSONDecodeError
             (if starts_no_value text
              then "Expecting value: line 1 column 1 (char 0)"
              else "Malformed JSON text"))
  end.

Fixpoint spaces (n : nat) : string :=
  match n with
  | O => EmptyString
  | S n' => String " " (spaces n')
  end.

Definition line_break (level : nat) : string :=
  String newline (spaces (2 * level)).

Fixpoint join_lines (level : nat) (items : list string) : string :=
  match items with
  | [] => EmptyString
  | [x] => x
  | x :: rest => x +:+ "," +:+ line_break level +:+ join_lines level rest
  end.

Fixpoint dumps_at (level : nat) (v : json) : string :=
  match v with
  | JNull => "null"
  | JBool true => "true"
  | JBool false => "false"
  | JInt n => py_str n
  | JFloat (S754_zero false) => "0.0"
  | JFloat (S754_zero true) => "-0.0"
  | JFloat (S754_infinity false) => "Infinity"
  | JFloat (S754_infinity true) => "-Infinity"
  | JFloat _ => "NaN"
  | JStr s => quoted s
  | JArr [] => "[]"
  | JArr items =>
      "[" +:+ line_break (S level)
      +:+ join_lines (S level) (map (dumps_at (S level)) items)
      +:+ line_break level +:+ "]"
  | JObj [] => "{}"
  | JObj members =>
      "{" +:+ line_break (S level)
      +:+ join_lines (S level)
            (map (fun kv => quoted (fst kv) +:+ ": " +:+ dumps_at (S level) (snd kv))
                 members)
      +:+ line_break level +:+ "}"
  end.

Definition dumps (v : json) : string := dumps_at 0 v.

End MiniJson.

(** * The protocol's guarantees *)

Section Guarantees.

Variable E : environment.

(** ** Steps that do not change the cursor artifact *)

(** From [w] to [w'] the handler neither wrote, replaced nor removed the
    cursor artifact. *)
Definition cursor_unwritten (w w' : world) : Prop :=
  exists tr, events w' = (tr ++ events w)%list /\ unchanged STATE_FILE tr = true.

Lemma cursor_unwritten_refl (w : world) : cursor_unwritten w w.
Proof. exists []. split; reflexivity. Qed.

Lemma cursor_unwritten_trans (a b c : world) :
  cursor_unwritten a b -> cursor_unwritten b c -> cursor_unwritten a c.
Proof.
  intros (tr1 & He1 & Hu1) (tr2 & He2 & Hu2). exists (tr2 ++ tr1)%list. split.
  - rewrite He2, He1. apply app_assoc.
  - unfold unchanged in *. rewrite forallb_app, Hu1, Hu2. reflexivity.
Qed.

Lemma cursor_unwritten_idle (n : nat) (path : string) (w : world) :
  cursor_unwritten w (idle E n path w).
Proof.
  revert w. induction n as [|n IH]; intros w; [apply cursor_unwritten_refl|].
  cbn [idle]. eapply cursor_unwritten_trans; [|apply IH].
  exists [EvSleep CHECK_INTERVAL; EvExists path]. split; reflexivity.
Qed.

Lemma cursor_unwritten_published (td : json) (w : world) :
  cursor_unwritten w (published E td w).
Proof. eexists [_; _; _; _; _]. split; reflexivity. Qed.

Lemma mutates_result_path (i : Z) :
  mutates STATE_FILE (EvRemove (result_file_path i)) = false.
Proof. apply String.eqb_neq. intros H. symmetry in H. revert H. apply result_path_not_state. Qed.

Lemma cursor_unwritten_discarded (i : Z) (e : pyexn) (w : world) :
  cursor_unwritten w (discarded E (result_file_path i) e w).
Proof.
  pose proof (mutates_result_path i) as Hm.
  unfold discarded. destruct (remove_fault E (result_file_path i)).
  - eexists [_; _; _; _; _; _; _]. split; [reflexivity|].
    cbn [unchanged forallb]. rewrite Hm. reflexivity.
  - eexists [_; _; _; _; _; _]. split; [reflexivity|].
    cbn [unchanged forallb]. rewrite Hm. reflexivity.
Qed.

Lemma cursor_unwritten_timed_out (w : world) : cursor_unwritten w (timed_out E w).
Proof.
  unfold timed_out.
  destruct (files w !! TRIGGER_FILE); [destruct (remove_fault E TRIGGER_FILE)|].
  - eexists [_; _; _]. split; reflexivity.
  - eexists [_; _; _]. split; reflexivity.
  - eexists [_]. split; reflexivity.
Qed.

(** ** What choosing the job depends on and does *)

Lemma choose_job_cases (body : json) (w : world) :
  (exists e, custom_params_of body = Raise e /\
             choose_job E body w = (w, Raise e)) \/
  (exists cp, custom_params_of body = Val cp /\ py_truthy cp = true /\
              choose_job E body w
              = (custom_chosen E cp w, Val (inr (-1, custom_descriptor cp)))) \/
  (exists cp, custom_params_of body = Val cp /\ py_truthy cp = false /\
              choose_job E body w
              = if cursor_value (files w) >=? get_total_samples
                then (record (EvRead STATE_FILE) w,
                      Val (inl (exhausted_response (cursor_value (files w)))))
                else (sequential_chosen w,
                      Val (inr (cursor_value (files w),
                                sequential_descriptor (cursor_value (files w)))))).
Proof.
  destruct (custom_params_of body) as [cp|e|] eqn:Hcp.
  - destruct (py_truthy cp) eqn:Ht; [right; left | right; right];
      exists cp; repeat split; try assumption.
    + apply (choose_job_custom E body cp w); assumption.
    + apply (choose_job_sequential E body cp w); assumption.
  - left. exists e. split; [reflexivity|].
    unfold custom_params_of in Hcp. unfold choose_job, bind, lift.
    rewrite Hcp. reflexivity.
  - exfalso. revert Hcp. apply py_get_total.
Qed.

Lemma choose_job_footprint (body : json) (w : world) :
  cursor_unwritten w (fst (choose_job E body w)) /\
  files (fst (choose_job E body w)) = files w /\
  clock (fst (choose_job E body w)) = clock w.
Proof.
  destruct (choose_job_cases body w)
    as [(e & _ & ->) | [(cp & _ & _ & ->) | (cp & _ & _ & ->)]]; cbn [fst].
  - split; [apply cursor_unwritten_refl|split; reflexivity].
  - split; [|split; reflexivity]. eexists [_; _; _]. split; reflexivity.
  - destruct (_ >=? _); cbn [fst]; (split; [|split; reflexivity]).
    + eexists [_]. split; reflexivity.
    + eexists [_; _]. split; reflexivity.
Qed.

(** The answer of [choose_job] depends on the directory through the
    cursor artifact only. *)
Lemma choose_job_answer_ext (body : json) (w w' : world) :
  files w' !! STATE_FILE = files w !! STATE_FILE ->
  snd (choose_job E body w') = snd (choose_job E body w).
Proof.
  intros Hf. apply cursor_value_ext in Hf.
  destruct (choose_job_cases body w)
    as [(e & He & ->) | [(cp & Hcp & Ht & ->) | (cp & Hcp & Ht & ->)]].
  - unfold custom_params_of in He. unfold choose_job, bind, lift.
    rewrite He. reflexivity.
  - rewrite (choose_job_custom E body cp w' Hcp Ht). reflexivity.
  - rewrite (choose_job_sequential E body cp w' Hcp Ht), Hf.
    destruct (_ >=? _); reflexivity.
Qed.

(** ** Successful and failed round trips *)

Lemma files_consumed (i : Z) (path : string) (w : world) :
  files (consumed i path w)
  = if i =? -1 then delete path (files w)
    else <[STATE_FILE := py_str (i + 1)]> (delete path (files w)).
Proof. unfold consumed. destruct (i =? -1); reflexivity. Qed.

Lemma events_consumed (i : Z) (path : string) (w : world) :
  events (consumed i path w)
  = ((if i =? -1 then []
      else [EvLog INFO ("Index updated to " +:+ py_str (i + 1));
            EvWrite STATE_FILE])
     ++ [EvLog INFO ("Result file " +:+ path +:+ " removed.");
         EvRemove path;
         EvLog INFO ("Result file found and read: " +:+ path);
         EvRead path;
         EvExists path] ++ events w)%list.
Proof. unfold consumed. destruct (i =? -1); reflexivity. Qed.

(** C1 (amended): a sequential request made when the cursor is [i], with
    [i] below the total-sample bound and not the custom marker, whose
    result artifact appears at the [k]-th poll and parses to a payload
    for which ["error" in result] is false, returns the payload with status
    200, advances the cursor to [i + 1] and deletes the result artifact,
    in the order read, remove, advance.  The handler does not touch the
    trigger artifact on this path: it is left as the worker left it. *)
Theorem sequential_success_advances_cursor
    (body cp : json) (w : world) (k : nat) (text : string) (r : json) :
  let i := cursor_value (files w) in
  let path := result_file_path i in
  let w0 := published E (sequential_descriptor i) (sequential_chosen w) in
  custom_params_of body = Val cp -> py_truthy cp = false ->
  i < get_total_samples -> i <> -1 ->
  open_w_fault E trigger_tmp = None ->
  replace_fault E trigger_tmp TRIGGER_FILE = None ->
  remove_fault E path = None ->
  open_w_fault E STATE_FILE = None ->
  Z.of_nat k < MAX_WAIT_TIME ->
  absent_for E k path w0 = true ->
  files (idle E k path w0) !! path = Some text ->
  json_load E text = inl r ->
  py_in "error" r = Val false ->
  exists w',
    generate_next E body w = (w', Val (r, 200)) /\
    cursor_value (files w') = i + 1 /\
    files w' !! path = None /\
    files w' !! TRIGGER_FILE = files (idle E k path w0) !! TRIGGER_FILE /\
    events w'
    = ([EvLog INFO ("Index updated to " +:+ py_str (i + 1));
        EvWrite STATE_FILE;
        EvLog INFO ("Result file " +:+ path +:+ " removed.");
        EvRemove path;
        EvLog INFO ("Result file found and read: " +:+ path);
        EvRead path;
        EvExists path] ++ events (idle E k path w0))%list.
Proof.
  intros i path w0 Hcp Hseq Hbound Hi Hw Hr Hrm Hst Hk Habs Hfound Hload Hin.
  assert (Hjob : choose_job E body w
                 = (sequential_chosen w, Val (inr (i, sequential_descriptor i)))).
  { rewrite (choose_job_sequential E body cp w Hcp Hseq). fold i.
    destruct (Z.geb_spec i get_total_samples); [lia|reflexivity]. }
  assert (Hneq : (i =? -1) = false) by (apply Z.eqb_neq; exact Hi).
  exists (consumed i path (idle E k path w0)).
  rewrite (generate_next_published E body w _ i _ Hjob Hw Hr).
  rewrite (await_result_consumes E k i text _ r false)
    by (try assumption; right; assumption).
  rewrite files_consumed, events_consumed, Hneq.
  split; [reflexivity|]. split; [apply cursor_value_insert|].
  split; [|split; [|reflexivity]].
  - rewrite lookup_insert_ne by (apply not_eq_sym, result_path_not_state).
    apply lookup_delete_eq.
  - rewrite lookup_insert_ne by (apply not_eq_sym, trigger_not_state).
    apply lookup_delete_ne, result_path_not_trigger.
Qed.

Lemma published_keeps_cursor (td : json) (w : world) :
  worker_keeps E STATE_FILE ->
  files (published E td w) !! STATE_FILE = files w !! STATE_FILE.
Proof.
  intros Hk. unfold published. cbn [files].
  rewrite (run_worker_keeps E STATE_FILE _ _ _ Hk).
  rewrite lookup_insert_ne by exact trigger_not_state.
  rewrite lookup_delete_ne by exact tmp_not_state.
  apply lookup_insert_ne, tmp_not_state.
Qed.


Lemma generate_next_awaits (body : json) (w : world) (i : Z) (td : json) :
  snd (choose_job E body w) = Val (inr (i, td)) ->
  open_w_fault E trigger_tmp = None ->
  replace_fault E trigger_tmp TRIGGER_FILE = None ->
  generate_next E body w
  = await_result E i (published E td (fst (choose_job E body w))).
Proof.
  intros Hjob Hw Hr. apply generate_next_published; try assumption.
  destruct (choose_job E body w) as [w1 answer]. cbn [fst snd] in *.
  rewrite Hjob. reflexivity.
Qed.


Lemma files_discarded (path : string) (e : pyexn) (w : world) :
  files (discarded E path e w)
  = match remove_fault E path with
    | None => delete path (files w)
    | Some _ => files w
    end.
Proof. unfold discarded. destruct (remove_fault E path); reflexivity. Qed.

Lemma events_discarded (path : string) (e : pyexn) (w : world) :
  events (discarded E path e w)
  = (match remove_fault E path with
     | None => []
     | Some remove_e =>
         [EvLog WARNING ("Failed to remove corrupted result file: "
                         +:+ exn_str remove_e)]
     end
     ++ [EvRemove path;
         EvExists path;
         EvLog ERROR (format_exc E e);
         EvLog ERROR ("Error reading/parsing result file " +:+ path +:+ ": "
                      +:+ exn_str e);
         EvRead path;
         EvExists path] ++ events w)%list.
Proof. unfold discarded. destruct (remove_fault E path); reflexivity. Qed.

(** C7: when the result artifact of a submission exists at the [k]-th poll
    but [json.load] raises on it, the handler answers status 500 with an
    internal-error payload; it tries once to remove the artifact, a
    failure of that removal is logged as a warning and changes nothing
    else; and the handler returns at once, so the artifact is read exactly
    once and no later poll parses it again. *)
Theorem corrupt_result_is_discarded
    (body : json) (w : world) (i : Z) (td : json) (k : nat)
    (text : string) (e : pyexn) :
  let path := result_file_path i in
  let w0 := published E td (fst (choose_job E body w)) in
  snd (choose_job E body w) = Val (inr (i, td)) ->
  open_w_fault E trigger_tmp = None ->
  replace_fault E trigger_tmp TRIGGER_FILE = None ->
  Z.of_nat k < MAX_WAIT_TIME ->
  absent_for E k path w0 = true ->
  files (idle E k path w0) !! path = Some text ->
  json_load E text = inr e ->
  exists w',
    generate_next E body w
    = (w', Val (JObj [("error",
                       JStr ("Error processing result: " +:+ exn_str e))], 500))
    /\
    files w'
    = match remove_fault E path with
      | None => delete path (files (idle E k path w0))
      | Some _ => files (idle E k path w0)
      end /\
    events w'
    = (match remove_fault E path with
       | None => []
       | Some remove_e =>
           [EvLog WARNING ("Failed to remove corrupted result file: "
                           +:+ exn_str remove_e)]
       end
       ++ [EvRemove path;
           EvExists path;
           EvLog ERROR (format_exc E e);
           EvLog ERROR ("Error reading/parsing result file " +:+ path +:+ ": "
                        +:+ exn_str e);
           EvRead path;
           EvExists path] ++ events (idle E k path w0))%list.
Proof.
  intros path w0 Hjob Hw Hr Hk Habs Hfound Hload.
  exists (discarded E path e (idle E k path w0)).
  rewrite (generate_next_awaits body w i td Hjob Hw Hr).
  rewrite (await_result_corrupt E k i text _ e) by assumption.
  split; [reflexivity|].
  split; [apply files_discarded|apply events_discarded].
Qed.

(** C10: a sequential request whose result artifact exists but does not
    parse performs no write, replace or remove on the cursor artifact; if
    the worker does not change the cursor either, the cursor holds the same
    value afterwards and the next sequential request is given the same
    index. *)
Theorem corrupt_result_keeps_cursor
    (body cp : json) (w : world) (k : nat) (text : string) (e : pyexn) :
  let i := cursor_value (files w) in
  let path := result_file_path i in
  let w0 := published E (sequential_descriptor i) (sequential_chosen w) in
  custom_params_of body = Val cp -> py_truthy cp = false ->
  i < get_total_samples ->
  open_w_fault E trigger_tmp = None ->
  replace_fault E trigger_tmp TRIGGER_FILE = None ->
  Z.of_nat k < MAX_WAIT_TIME ->
  absent_for E k path w0 = true ->
  files (idle E k path w0) !! path = Some text ->
  json_load E text = inr e ->
  exists w',
    generate_next E body w
    = (w', Val (JObj [("error",
                       JStr ("Error processing result: " +:+ exn_str e))], 500))
    /\
    (exists tr, events w' = (tr ++ events w)%list /\
                unchanged STATE_FILE tr = true) /\
    (worker_keeps E STATE_FILE ->
     files w' !! STATE_FILE = files w !! STATE_FILE /\
     cursor_value (files w') = i /\
     snd (choose_job E body w') = Val (inr (i, sequential_descriptor i))).
Proof.
  intros i path w0 Hcp Hseq Hbound Hw Hr Hk Habs Hfound Hload.
  assert (Hjob : choose_job E body w
                 = (sequential_chosen w, Val (inr (i, sequential_descriptor i)))).
  { rewrite (choose_job_sequential E body cp w Hcp Hseq). fold i.
    destruct (Z.geb_spec i get_total_samples); [lia|reflexivity]. }
  exists (discarded E path e (idle E k path w0)).
  rewrite (generate_next_published E body w _ i _ Hjob Hw Hr).
  rewrite (await_result_corrupt E k i text _ e) by assumption.
  split; [reflexivity|]. split.
  - change (cursor_unwritten w (discarded E path e (idle E k path w0))).
    eapply cursor_unwritten_trans; [|apply cursor_unwritten_discarded].
    eapply cursor_unwritten_trans; [|apply cursor_unwritten_idle].
    eapply cursor_unwritten_trans; [|apply cursor_unwritten_published].
    eexists [_; _]. split; reflexivity.
  - intros Hkeeps.
    assert (Hsame : files (discarded E path e (idle E k path w0)) !! STATE_FILE
                    = files w !! STATE_FILE).
    { rewrite files_discarded.
      assert (Hidle : files (idle E k path w0) !! STATE_FILE
                      = files w !! STATE_FILE).
      { rewrite (idle_keeps E STATE_FILE path k w0 Hkeeps). unfold w0.
        rewrite (published_keeps_cursor _ _ Hkeeps). reflexivity. }
      destruct (remove_fault E path); [exact Hidle|].
      rewrite lookup_delete_ne by apply result_path_not_state. exact Hidle. }
    split; [exact Hsame|]. split.
    + apply cursor_value_ext, Hsame.
    + rewrite (choose_job_answer_ext body w _ Hsame), Hjob. reflexivity.
Qed.

(** ** Timeout *)

Lemma files_timed_out (w : world) :
  files (timed_out E w)
  = match remove_fault E TRIGGER_FILE with
    | None => delete TRIGGER_FILE (files w)
    | Some _ => files w
    end.
Proof.
  unfold timed_out. destruct (files w !! TRIGGER_FILE) eqn:Hf.
  - destruct (remove_fault E TRIGGER_FILE); reflexivity.
  - cbn [files record]. destruct (remove_fault E TRIGGER_FILE); [reflexivity|].
    symmetry. apply delete_id, Hf.
Qed.

(** C2: when the result artifact of a submission is missing at every poll
    up to the wait ceiling, the handler answers status 500 with the
    timeout error; it removes the trigger artifact if it is there and the
    removal does not fail; it performs no write, replace or remove on the
    cursor artifact, so that, the worker not changing the cursor either, a
    request retried at once is given the same index and descriptor. *)
Theorem timeout_leaves_cursor (body : json) (w : world) (i : Z) (td : json) :
  let path := result_file_path i in
  let w0 := published E td (fst (choose_job E body w)) in
  let wT := idle E (Z.to_nat MAX_WAIT_TIME) path w0 in
  snd (choose_job E body w) = Val (inr (i, td)) ->
  open_w_fault E trigger_tmp = None ->
  replace_fault E trigger_tmp TRIGGER_FILE = None ->
  absent_for E (Z.to_nat MAX_WAIT_TIME) path w0 = true ->
  exists w',
    generate_next E body w
    = (w', Val (JObj [("error", JStr "Timeout waiting for video generation")],
                500)) /\
    files w'
    = match remove_fault E TRIGGER_FILE with
      | None => delete TRIGGER_FILE (files wT)
      | Some _ => files wT
      end /\
    (exists tr, events w' = (tr ++ events w)%list /\
                unchanged STATE_FILE tr = true) /\
    (worker_keeps E STATE_FILE ->
     files w' !! STATE_FILE = files w !! STATE_FILE /\
     snd (choose_job E body w') = Val (inr (i, td))).
Proof.
  intros path w0 wT Hjob Hw Hr Habs.
  exists (timed_out E wT).
  rewrite (generate_next_awaits body w i td Hjob Hw Hr).
  change (published E td (fst (choose_job E body w))) with w0.
  rewrite (await_result_timeout E i w0 Habs).
  destruct (choose_job_footprint body w) as (Hchosen & Hfiles & _).
  split; [reflexivity|]. split; [apply files_timed_out|]. split.
  - change (cursor_unwritten w (timed_out E wT)).
    eapply cursor_unwritten_trans; [|apply cursor_unwritten_timed_out].
    eapply cursor_unwritten_trans; [|apply cursor_unwritten_idle].
    eapply cursor_unwritten_trans; [|apply cursor_unwritten_published].
    exact Hchosen.
  - intros Hkeeps.
    assert (Hsame : files (timed_out E wT) !! STATE_FILE = files w !! STATE_FILE).
    { rewrite files_timed_out.
      assert (HwT : files wT !! STATE_FILE = files w !! STATE_FILE).
      { unfold wT. rewrite (idle_keeps E STATE_FILE path _ w0 Hkeeps). unfold w0.
        rewrite (published_keeps_cursor _ _ Hkeeps), Hfiles. reflexivity. }
      destruct (remove_fault E TRIGGER_FILE); [exact HwT|].
      rewrite lookup_delete_ne by exact trigger_not_state. exact HwT. }
    split; [exact Hsame|].
    rewrite (choose_job_answer_ext body w _ Hsame). exact Hjob.
Qed.

(** ** Requests that are answered before any job is published *)

(** C6: a sequential request made when the cursor has reached the
    total-sample bound is answered at once with status 400 and the cursor
    in the body.  The only thing the handler did was read the cursor
    artifact: the directory and the clock are as before, no trigger was
    written. *)
Theorem exhausted_cursor_is_rejected (body cp : json) (w : world) :
  custom_params_of body = Val cp -> py_truthy cp = false ->
  get_total_samples <= cursor_value (files w) ->
  generate_next E body w
  = ({| files := files w; clock := clock w;
        events := EvRead STATE_FILE :: events w |},
     Val (JObj [("error", JStr "All samples generated");
                ("index", JInt (cursor_value (files w)))], 400)).
Proof.
  intros Hcp Hseq Hbound. unfold generate_next, bind.
  rewrite (choose_job_sequential E body cp w Hcp Hseq).
  destruct (Z.geb_spec (cursor_value (files w)) get_total_samples); [|lia].
  reflexivity.
Qed.

(** ** Custom mode *)

(** C3 (amended): a request whose [custom_params] value is truthy (any
    non-empty mapping is) is handled in custom mode whatever the cursor
    holds: choosing the job only logs, it reads no artifact and makes no
    bound check, the index is -1, and, when publishing does not fail, the
    descriptor handed to the worker under the trigger path is the
    serialisation of [{"index": -1, "custom_params": custom_params}]; the
    handler then waits for [result_custom.json]. *)
Theorem truthy_custom_params_select_custom_mode
    (body cp : json) (w : world) :
  let descriptor := JObj [("index", JInt (-1)); ("custom_params", cp)] in
  let w1 := custom_chosen E cp w in
  custom_params_of body = Val cp -> py_truthy cp = true ->
  open_w_fault E trigger_tmp = None ->
  replace_fault E trigger_tmp TRIGGER_FILE = None ->
  choose_job E body w = (w1, Val (inr (-1, descriptor))) /\
  files w1 = files w /\
  events w1
  = ([EvLog INFO "Custom generation parameters validated successfully";
      EvLog INFO ("Custom parameters: " +:+ json_dumps E cp);
      EvLog INFO "Received custom parameter generation request"]
     ++ events w)%list /\
  (exists fs,
     fs !! TRIGGER_FILE = Some (json_dumps E descriptor) /\
     files (published E descriptor w1) = run_worker E 100 (clock w) fs) /\
  result_file_path (-1) = "./gradio_results/result_custom.json" /\
  generate_next E body w = await_result E (-1) (published E descriptor w1).
Proof.
  intros descriptor w1 Hcp Ht Hw Hr.
  pose proof (choose_job_custom E body cp w Hcp Ht) as Hjob.
  split; [exact Hjob|]. split; [reflexivity|]. split; [reflexivity|].
  split; [|split; [reflexivity|]].
  - eexists. split; [|reflexivity]. apply lookup_insert_eq.
  - apply (generate_next_published E body w w1 (-1) descriptor Hjob Hw Hr).
Qed.

Lemma nonempty_mapping_truthy (member : string * json)
    (members : list (string * json)) :
  py_truthy (JObj (member :: members)) = true.
Proof. reflexivity. Qed.

(** C9: a custom-mode request always comes to an end, and whatever its
    outcome the handler performs no operation at all on the cursor
    artifact: no existence test, read, write, replace or remove.  If the
    worker does not change the cursor either, the artifact holds afterwards
    what it held before. *)
Theorem custom_request_leaves_cursor (body cp : json) (w : world) :
  custom_params_of body = Val cp -> py_truthy cp = true ->
  exists w' outcome,
    generate_next E body w = (w', outcome) /\
    outcome <> OutOfFuel /\
    (exists tr, events w' = (tr ++ events w)%list /\
                untouched STATE_FILE tr = true) /\
    (worker_keeps E STATE_FILE ->
     files w' !! STATE_FILE = files w !! STATE_FILE).
Proof.
  intros Hcp Ht.
  assert (Hkeeps : keeps (leaves E STATE_FILE) (generate_next E body)).
  { intros w0.
    assert (Heq : generate_next E body w0
                  = bind (publish_trigger E (custom_descriptor cp))
                      (fun failed => match failed with
                                     | Some early => ret early
                                     | None => await_result E (-1)
                                     end) (custom_chosen E cp w0)).
    { unfold generate_next, bind at 1.
      rewrite (choose_job_custom E body cp w0 Hcp Ht). reflexivity. }
    rewrite Heq.
    pose proof (custom_chosen_leaves E cp w0) as Hchosen.
    assert (Hrest : keeps (leaves E STATE_FILE)
              (bind (publish_trigger E (custom_descriptor cp))
                 (fun failed => match failed with
                                | Some early => ret early
                                | None => await_result E (-1)
                                end))).
    { apply keeps_bind; [apply leaves_trans|apply publish_trigger_frames|].
      intros [early|]; [frame_step|apply await_custom_frames]. }
    destruct (Hrest (custom_chosen E cp w0)) as [Hleaves Htotal].
    split; [|exact Htotal]. eapply leaves_trans; eassumption. }
  destruct (Hkeeps w) as [[Htrace Hfile] Htotal].
  destruct (generate_next E body w) as [w' outcome]. cbn [fst snd] in *.
  exists w', outcome. repeat split; assumption.
Qed.

End Guarantees.

(** ** Reading the cursor *)


Lemma append_cons (a : ascii) (s t : string) :
  String a s +:+ t = String a (s +:+ t).
Proof. reflexivity. Qed.

Lemma append_empty (t : string) : EmptyString +:+ t = t.
Proof. reflexivity. Qed.








(** ** How long a request blocks *)

Section Blocking.

Variable E : environment.

Lemma clock_timed_out (w : world) : clock (timed_out E w) = clock w.
Proof.
  unfold timed_out.
  destruct (files w !! TRIGGER_FILE); [destruct (remove_fault E TRIGGER_FILE)|];
    reflexivity.
Qed.

(** C4 (what the code does): after the trigger is published the handler
    sleeps 100 seconds before it takes the loop's start time, so a request
    whose result never appears answers 100 + MAX_WAIT_TIME seconds after it
    was received, which is more than the wait ceiling. *)
Theorem timeout_blocks_past_ceiling (body : json) (w : world) (i : Z) (td : json) :
  let path := result_file_path i in
  let w0 := published E td (fst (choose_job E body w)) in
  snd (choose_job E body w) = Val (inr (i, td)) ->
  open_w_fault E trigger_tmp = None ->
  replace_fault E trigger_tmp TRIGGER_FILE = None ->
  absent_for E (Z.to_nat MAX_WAIT_TIME) path w0 = true ->
  exists w',
    generate_next E body w
    = (w', Val (JObj [("error", JStr "Timeout waiting for video generation")],
                500)) /\
    In (EvSleep 100) (events w0) /\
    clock w' - clock w = 100 + MAX_WAIT_TIME /\
    MAX_WAIT_TIME < clock w' - clock w.
Proof.
  intros path w0 Hjob Hw Hr Habs.
  exists (timed_out E (idle E (Z.to_nat MAX_WAIT_TIME) path w0)).
  rewrite (generate_next_awaits E body w i td Hjob Hw Hr).
  change (published E td (fst (choose_job E body w))) with w0.
  rewrite (await_result_timeout E i w0 Habs).
  destruct (choose_job_footprint E body w) as (_ & _ & Hclock).
  assert (Ht : clock (timed_out E (idle E (Z.to_nat MAX_WAIT_TIME) path w0))
               - clock w = 100 + MAX_WAIT_TIME).
  { rewrite clock_timed_out, clock_idle. unfold w0, published. cbn [clock].
    rewrite Hclock. pose proof MAX_WAIT_TIME_pos. lia. }
  split; [reflexivity|]. split; [|split; [exact Ht|lia]].
  unfold w0, published. cbn [events In]. auto.
Qed.

End Blocking.

(** * Concrete runs *)

Module Examples.

Import MiniJson.

Definition traceback (e : pyexn) : string :=
  "Traceback (most recent call last): " +:+ exn_str e.

(** A healthy file system, with the worker's behaviour left open. *)
Definition env_with (behaviour : Z -> gmap string string -> gmap string string)
  : environment :=
  {| json_load := loads;
     json_dumps := dumps;
     format_exc := traceback;
     worker := behaviour;
     open_w_fault := fun _ => None;
     remove_fault := fun _ => None;
     replace_fault := fun _ _ => None |}.

(** A worker that does nothing at all. *)
Definition asleep (t : Z) (fs : gmap string string) : gmap string string := fs.

(** A worker that writes [text] to [path] during the second that starts at
    [at_time], and touches nothing else. *)
Definition writes_at (at_time : Z) (path text : string)
    (t : Z) (fs : gmap string string) : gmap string string :=
  if t =? at_time then <[path := text]> fs else fs.

Definition directory_with_cursor (text : string) : world :=
  {| files := {[STATE_FILE := text]}; clock := 0; events := [] |}.

Definition fresh : world := directory_with_cursor "0".

Definition ok_text : string := "{" +:+ quoted "ok" +:+ ": true}".
Definition oom_text : string :=
  "{" +:+ quoted "error" +:+ ": " +:+ quoted "oom" +:+ "}".
Definition garbage_text : string := "not json".

Example loads_examples :
  loads ok_text = inl (JObj [("ok", JBool true)]) /\
  loads oom_text = inl (JObj [("error", JStr "oom")]) /\
  loads garbage_text
  = inr (PyExn JSONDecodeError "Expecting value: line 1 column 1 (char 0)") /\
  loads "[1, -2, [], {}]" = inl (JArr [JInt 1; JInt (-2); JArr []; JObj []]).
Proof. repeat split. Qed.

Example dumps_example :
  dumps (JObj [("index", JInt (-1)); ("custom_params", JObj [("x", JInt 1)])])
  = "{" +:+ String newline ("  " +:+ quoted "index" +:+ ": -1,")
    +:+ String newline ("  " +:+ quoted "custom_params" +:+ ": {")
    +:+ String newline ("    " +:+ quoted "x" +:+ ": 1")
    +:+ String newline "  }"
    +:+ String newline "}".
Proof. reflexivity. Qed.

(** Scenario 1 of the specification: the cursor is 0 and the worker writes
    [{"ok": true}] while the handler sleeps between its first two polls. *)
Definition env_ok : environment :=
  env_with (writes_at 100 (result_file_path 0) ok_text).

Example scenario_ok_run :
  snd (generate_next env_ok JNull fresh) = Val (JObj [("ok", JBool true)], 200)
  /\ cursor_value (files (fst (generate_next env_ok JNull fresh))) = 1
  /\ clock (fst (generate_next env_ok JNull fresh)) = 101.
Proof. vm_compute. repeat split. Qed.

Lemma writes_at_keeps_cursor (at_time i : Z) (text : string) :
  worker_keeps (env_with (writes_at at_time (result_file_path i) text)) STATE_FILE.
Proof.
  intros t fs. cbn [worker env_with]. unfold writes_at.
  destruct (t =? at_time); [|reflexivity].
  apply lookup_insert_ne, result_path_not_state.
Qed.

Lemma asleep_keeps_cursor : worker_keeps (env_with asleep) STATE_FILE.
Proof. intros t fs. reflexivity. Qed.

(** The successful round trip of scenario 1. *)
Lemma sequential_success_witness :
  exists w',
    generate_next env_ok JNull fresh = (w', Val (JObj [("ok", JBool true)], 200))
    /\ cursor_value (files w') = 1
    /\ files w' !! result_file_path 0 = None.
Proof.
  destruct (sequential_success_advances_cursor env_ok JNull JNull fresh 1
              ok_text (JObj [("ok", JBool true)]))
    as (w' & Hrun & Hcursor & Hresult & _).
  - reflexivity.
  - reflexivity.
  - vm_compute. reflexivity.
  - vm_compute. discriminate.
  - reflexivity.
  - reflexivity.
  - reflexivity.
  - reflexivity.
  - vm_compute. reflexivity.
  - vm_compute. reflexivity.
  - vm_compute. reflexivity.
  - vm_compute. reflexivity.
  - reflexivity.
  - exists w'. split; [exact Hrun|]. split; [exact Hcursor|exact Hresult].
Defined.

(** C1 as stated fails: in scenario 1 the cursor is 0, the result appears
    at the second poll and is free of errors, the request answers 200 and
    the cursor becomes 1, yet the trigger artifact is still in the
    directory when the request ends: nothing in the handler removes it. *)
Lemma trigger_survives_successful_round_trip :
  cursor_value (files fresh) = 0 /\
  0 < get_total_samples /\
  (let w0 := published env_ok (JObj [("index", JInt 0)]) (sequential_chosen fresh) in
   files w0 !! result_file_path 0 = None /\
   files (idle env_ok 1 (result_file_path 0) w0) !! result_file_path 0
   = Some ok_text) /\
  json_load env_ok ok_text = inl (JObj [("ok", JBool true)]) /\
  py_in "error" (JObj [("ok", JBool true)]) = Val false /\
  snd (generate_next env_ok JNull fresh) = Val (JObj [("ok", JBool true)], 200)
  /\
  cursor_value (files (fst (generate_next env_ok JNull fresh))) = 1 /\
  files (fst (generate_next env_ok JNull fresh)) !! result_file_path 0 = None
  /\
  files (fst (generate_next env_ok JNull fresh)) !! TRIGGER_FILE
  = Some (dumps (JObj [("index", JInt 0)])).
Proof. vm_compute. repeat split. Qed.

(** A payload that is a bare number: it parses and is consumed, the cursor
    advances, and the membership test on it raises [TypeError], so the
    answer is the internal error. *)
Example scalar_payload_run :
  let env := env_with (writes_at 100 (result_file_path 0) "5") in
  snd (generate_next env JNull fresh)
  = Val (JObj [("error",
                JStr "Error processing result: argument of type 'int' is not iterable")],
         500)
  /\ cursor_value (files (fst (generate_next env JNull fresh))) = 1
  /\ files (fst (generate_next env JNull fresh)) !! result_file_path 0 = None.
Proof. vm_compute. repeat split. Qed.



(** A result artifact that is not JSON. *)
Definition env_garbage : environment :=
  env_with (writes_at 100 (result_file_path 0) garbage_text).

Lemma corrupt_result_witness :
  exists w',
    generate_next env_garbage JNull fresh
    = (w', Val (JObj [("error",
                       JStr "Error processing result: Expecting value: line 1 column 1 (char 0)")],
                500))
    /\ files w' !! result_file_path 0 = None.
Proof.
  destruct (corrupt_result_is_discarded env_garbage JNull fresh 0
              (JObj [("index", JInt 0)]) 1 garbage_text
              (PyExn JSONDecodeError "Expecting value: line 1 column 1 (char 0)"))
    as (w' & Hrun & Hfiles & _).
  - vm_compute. reflexivity.
  - reflexivity.
  - reflexivity.
  - vm_compute. reflexivity.
  - vm_compute. reflexivity.
  - vm_compute. reflexivity.
  - vm_compute. reflexivity.
  - exists w'. split; [exact Hrun|].
    rewrite Hfiles. cbn [remove_fault env_garbage env_with].
    apply lookup_delete_eq.
Defined.

Lemma corrupt_result_cursor_witness :
  exists w',
    generate_next env_garbage JNull fresh
    = (w', Val (JObj [("error",
                       JStr "Error processing result: Expecting value: line 1 column 1 (char 0)")],
                500))
    /\ cursor_value (files w') = 0
    /\ snd (choose_job env_garbage JNull w') = Val (inr (0, JObj [("index", JInt 0)])).
Proof.
  destruct (corrupt_result_keeps_cursor env_garbage JNull JNull fresh 1
              garbage_text
              (PyExn JSONDecodeError "Expecting value: line 1 column 1 (char 0)"))
    as (w' & Hrun & _ & Hkept).
  - reflexivity.
  - reflexivity.
  - vm_compute. reflexivity.
  - reflexivity.
  - reflexivity.
  - vm_compute. reflexivity.
  - vm_compute. reflexivity.
  - vm_compute. reflexivity.
  - vm_compute. reflexivity.
  - destruct (Hkept (writes_at_keeps_cursor 100 0 garbage_text))
      as (_ & Hcursor & Hretry).
    exists w'. split; [exact Hrun|]. split; [exact Hcursor|exact Hretry].
Defined.

(** Scenario 4 of the specification: no result ever appears. *)
Definition env_asleep : environment := env_with asleep.

Lemma timeout_witness :
  exists w',
    generate_next env_asleep JNull fresh
    = (w', Val (JObj [("error", JStr "Timeout waiting for video generation")],
                500))
    /\ files w' !! TRIGGER_FILE = None
    /\ files w' !! STATE_FILE = Some "0"
    /\ snd (choose_job env_asleep JNull w') = Val (inr (0, JObj [("index", JInt 0)])).
Proof.
  destruct (timeout_leaves_cursor env_asleep JNull fresh 0
              (JObj [("index", JInt 0)]))
    as (w' & Hrun & Hfiles & _ & Hkept).
  - vm_compute. reflexivity.
  - reflexivity.
  - reflexivity.
  - vm_compute. reflexivity.
  - destruct (Hkept asleep_keeps_cursor) as (Hcursor & Hretry).
    exists w'. split; [exact Hrun|]. split; [|split; [|exact Hretry]].
    + rewrite Hfiles. cbn [remove_fault env_asleep env_with].
      apply lookup_delete_eq.
    + rewrite Hcursor. reflexivity.
Defined.

Lemma timeout_blocking_witness :
  exists w',
    generate_next env_asleep JNull fresh
    = (w', Val (JObj [("error", JStr "Timeout waiting for video generation")],
                500))
    /\ clock w' - clock fresh = 30100.
Proof.
  destruct (timeout_blocks_past_ceiling env_asleep JNull fresh 0
              (JObj [("index", JInt 0)]))
    as (w' & Hrun & _ & Hclock & _).
  - vm_compute. reflexivity.
  - reflexivity.
  - reflexivity.
  - vm_compute. reflexivity.
  - exists w'. split; [exact Hrun|exact Hclock].
Defined.

(** Scenario 2 of the specification, at the bound the code configures. *)
Lemma exhausted_cursor_witness :
  generate_next env_asleep JNull (directory_with_cursor "1000")
  = ({| files := {[STATE_FILE := "1000"]}; clock := 0;
        events := [EvRead STATE_FILE] |},
     Val (JObj [("error", JStr "All samples generated");
                ("index", JInt 1000)], 400)).
Proof.
  apply (exhausted_cursor_is_rejected env_asleep JNull JNull
           (directory_with_cursor "1000")).
  - reflexivity.
  - reflexivity.
  - vm_compute. discriminate.
Defined.

(** Custom mode. *)
Definition custom_body : json := JObj [("custom_params", JObj [("x", JInt 1)])].

Definition env_custom_oom : environment :=
  env_with (writes_at 100 (result_file_path (-1)) oom_text).

Lemma custom_mode_witness :
  snd (choose_job env_custom_oom custom_body (directory_with_cursor "1000"))
  = Val (inr (-1, JObj [("index", JInt (-1));
                        ("custom_params", JObj [("x", JInt 1)])])).
Proof.
  destruct (truthy_custom_params_select_custom_mode env_custom_oom custom_body
              (JObj [("x", JInt 1)]) (directory_with_cursor "1000"))
    as (Hjob & _).
  - reflexivity.
  - reflexivity.
  - reflexivity.
  - reflexivity.
  - rewrite Hjob. reflexivity.
Defined.

(** C3 as stated fails: this body contains a [custom_params] field, an
    empty mapping, and the request is handled in sequential mode: the
    cursor is read and checked against the bound, and the request is
    rejected without any trigger. *)
Lemma empty_custom_params_goes_sequential :
  py_get (JObj [("custom_params", JObj [])]) "custom_params" = Val (JObj [])
  /\
  generate_next env_asleep (JObj [("custom_params", JObj [])])
    (directory_with_cursor "1000")
  = ({| files := {[STATE_FILE := "1000"]}; clock := 0;
        events := [EvRead STATE_FILE] |},
     Val (JObj [("error", JStr "All samples generated");
                ("index", JInt 1000)], 400)).
Proof. split; vm_compute; reflexivity. Qed.

(** Scenario 3 of the specification: a custom request answered by a
    worker-reported error leaves the cursor artifact as it was. *)
Lemma custom_request_witness :
  exists w' outcome,
    generate_next env_custom_oom custom_body fresh = (w', outcome)
    /\ outcome <> OutOfFuel
    /\ files w' !! STATE_FILE = Some "0".
Proof.
  destruct (custom_request_leaves_cursor env_custom_oom custom_body
              (JObj [("x", JInt 1)]) fresh)
    as (w' & outcome & Hrun & Htotal & _ & Hkept).
  - reflexivity.
  - reflexivity.
  - exists w', outcome. split; [exact Hrun|]. split; [exact Htotal|].
    rewrite (Hkept (writes_at_keeps_cursor 100 (-1) oom_text)). reflexivity.
Defined.

Example scenario_custom_oom_run :
  snd (generate_next env_custom_oom custom_body fresh)
  = Val (JObj [("error", JStr "oom")], 500)
  /\ files (fst (generate_next env_custom_oom custom_body fresh)) !! STATE_FILE
     = Some "0".
Proof. vm_compute. repeat split. Qed.

End Examples.

(** * Further properties of the server *)

(** ** The cursor store, continued *)

Section CursorStore.

Variable E : environment.



(** X2: when the cursor artifact cannot be written,
    [update_current_index] logs one error and raises the very exception of
    the failed write to its caller; the directory is left as it was, so the
    cursor keeps its value. *)
Theorem cursor_write_failure_is_raised (n : Z) (w : world) (e : pyexn) :
  open_w_fault E STATE_FILE = Some e ->
  update_current_index E n w
  = ({| files := files w; clock := clock w;
        events := EvLog ERROR ("Failed to update state file: " +:+ exn_str e)
                  :: EvWrite STATE_FILE :: events w |},
     Raise e).
Proof.
  intros Hw. unfold update_current_index, try_except, write_file. rewrite Hw.
  rewrite caught_by_Exception. reflexivity.
Qed.

(** *** Start-up and shutdown *)

(** The module's start-up code (lines 25-28): the cursor artifact is
    created, holding 0, when it does not exist. *)
Definition ensure_state_file : M unit :=
  there <- os_path_exists STATE_FILE ;;
  if negb there then write_file E STATE_FILE "0" else ret tt.


(** X3: start-up never changes the value of the cursor: an existing cursor
    artifact is left untouched, whatever it holds, and a missing one is
    created holding 0, which is what [get_current_index] reads from a
    missing artifact anyway.  No other artifact is changed.  A server that
    is restarted therefore resumes at the index it had reached. *)
Theorem startup_preserves_cursor (w : world) :
  let w' := fst (ensure_state_file w) in
  cursor_value (files w') = cursor_value (files w) /\
  (forall text, files w !! STATE_FILE = Some text -> files w' = files w) /\
  (files w !! STATE_FILE = None -> open_w_fault E STATE_FILE = None ->
   files w' !! STATE_FILE = Some "0") /\
  (forall path, path <> STATE_FILE -> files w' !! path = files w !! path).
Proof.
  unfold ensure_state_file, bind, os_path_exists, write_file, ret.
  destruct (files w !! STATE_FILE) as [text|] eqn:Hf; cbn [negb fst].
  - repeat split; try reflexivity. intros Hnone. congruence.
  - destruct (open_w_fault E STATE_FILE) as [e|] eqn:Hw;
      cbn [fst files set_files record].
    + repeat split; try reflexivity; congruence.
    + split; [|split; [|split]].
      * unfold cursor_value. rewrite lookup_insert_eq, Hf. reflexivity.
      * intros text Htext. congruence.
      * intros _ _. apply lookup_insert_eq.
      * intros path Hpath. apply lookup_insert_ne. congruence.
Qed.


End CursorStore.

(** ** Result paths *)

Lemma length_append (s t : string) :
  String.length (s +:+ t) = (String.length s + String.length t)%nat.
Proof. induction s as [|a s IH]; [reflexivity|]. cbn. rewrite <- IH. reflexivity. Qed.

Lemma append_inv_tail (s s' t : string) : s +:+ t = s' +:+ t -> s = s'.
Proof.
  revert s'. induction s as [|a s IH]; intros [|b s'] H.
  - reflexivity.
  - apply (f_equal String.length) in H.
    rewrite append_empty, append_cons in H. cbn [String.length] in H.
    rewrite length_append in H. lia.
  - apply (f_equal String.length) in H.
    rewrite append_empty, append_cons in H. cbn [String.length] in H.
    rewrite length_append in H. lia.
  - rewrite !append_cons in H. injection H as -> H. f_equal. apply IH, H.
Qed.

Lemma py_str_inj (i j : Z) : py_str i = py_str j -> i = j.
Proof.
  intros H. pose proof (int_literal_py_str i) as Hi.
  rewrite H, int_literal_py_str in Hi. congruence.
Qed.

Lemma py_str_not_custom (j : Z) (rest : string) : py_str j <> String "c" rest.
Proof.
  intros H. pose proof (int_literal_py_str j) as Hj. rewrite H in Hj.
  discriminate Hj.
Qed.

Lemma result_file_path_inj (i j : Z) :
  result_file_path i = result_file_path j -> i = j.
Proof.
  rewrite !result_file_path_eq.
  destruct (Z.eqb_spec i (-1)) as [->|Hi], (Z.eqb_spec j (-1)) as [->|Hj];
    intros H; [reflexivity|exfalso..|].
  - apply String.app_inj in H. apply String.app_inj with (s1 := "result_") in H.
    destruct (py_str j) as [|a rest] eqn:Hs; [discriminate H|].
    rewrite append_cons in H. injection H as <- _.
    exact (py_str_not_custom j rest Hs).
  - apply String.app_inj in H. apply String.app_inj with (s1 := "result_") in H.
    destruct (py_str i) as [|a rest] eqn:Hs; [discriminate H|].
    rewrite append_cons in H. injection H as -> _.
    exact (py_str_not_custom i rest Hs).
  - apply String.app_inj in H. apply String.app_inj with (s1 := "result_") in H.
    apply append_inv_tail in H. apply py_str_inj, H.
Qed.

(** X5: the result artifacts of different jobs never share a path, the
    custom job included: two indexes have the same result path exactly when
    they are equal.  Nor is a result path ever the path of the cursor, of
    the trigger, of the trigger's temporary file or of the shutdown
    marker. *)
Theorem result_paths_are_separate (i j : Z) :
  String.eqb (result_file_path i) (result_file_path j) = (i =? j) /\
  String.eqb (result_file_path i) STATE_FILE = false /\
  String.eqb (result_file_path i) TRIGGER_FILE = false /\
  String.eqb (result_file_path i) trigger_tmp = false /\
  String.eqb (result_file_path i) SHUTDOWN_FILE = false.
Proof.
  split.
  - destruct (Z.eqb_spec i j) as [->|Hij].
    + apply String.eqb_refl.
    + apply String.eqb_neq. intros H. apply Hij, result_file_path_inj, H.
  - repeat split; apply String.eqb_neq.
    + apply result_path_not_state.
    + apply result_path_not_trigger.
    + apply result_path_not_tmp.
    + rewrite result_file_path_eq. destruct (i =? -1); discriminate.
Qed.

(** ** Requests that never reach the worker *)

Section Rejected.

Variable E : environment.

Definition is_object (v : json) : bool :=
  match v with
  | JObj _ => true
  | _ => false
  end.

Lemma py_or_falsy (body : json) :
  py_truthy body = false -> py_or body (JObj []) = JObj [].
Proof. unfold py_or. intros ->. reflexivity. Qed.

(** X6: a request whose body is falsy ([null], [{}], [[]], [0], an empty
    string, [false]) is handled exactly as a request with an empty object
    as its body: a sequential request. *)
Theorem falsy_body_is_empty_body (body : json) (w : world) :
  py_truthy body = false ->
  generate_next E body w = generate_next E (JObj []) w /\
  custom_params_of body = Val JNull.
Proof.
  intros Hfalsy. unfold generate_next, choose_job, custom_params_of.
  rewrite (py_or_falsy body Hfalsy). split; reflexivity.
Qed.

(** X7: a request whose body is truthy JSON but not an object (an array, a
    string, a number, [true]) makes the handler raise [AttributeError]
    before it reads or writes any artifact: nothing is logged, the
    directory and the clock are as before. *)
Theorem non_object_body_raises (body : json) (w : world) :
  py_truthy body = true ->
  is_object body = false ->
  generate_next E body w
  = (w, Raise (PyExn AttributeError
                 ("'" +:+ type_name body +:+ "' object has no attribute 'get'"))).
Proof.
  intros Htruthy Hshape. unfold generate_next, choose_job, bind, lift, py_or.
  rewrite Htruthy. destruct body; try discriminate Hshape; reflexivity.
Qed.

(** Publishing fails when the temporary file cannot be opened. *)
Lemma publish_trigger_open_fails (td : json) (w : world) (e : pyexn) :
  open_w_fault E trigger_tmp = Some e ->
  publish_trigger E td w
  = ({| files := files w; clock := clock w;
        events := EvLog ERROR (format_exc E e)
                  :: EvLog ERROR ("Failed to write trigger file: " +:+ exn_str e)
                  :: EvWrite trigger_tmp :: events w |},
     Val (Some (JObj [("error",
                       JStr ("Failed to trigger generation: " +:+ exn_str e))],
                500))).
Proof.
  intros Hw. unfold publish_trigger, try_except, bind, write_file. rewrite Hw.
  rewrite caught_by_Exception. reflexivity.
Qed.

(** Publishing fails when the rename fails. *)
Lemma publish_trigger_replace_fails (td : json) (w : world) (e : pyexn) :
  open_w_fault E trigger_tmp = None ->
  replace_fault E trigger_tmp TRIGGER_FILE = Some e ->
  publish_trigger E td w
  = ({| files := <[trigger_tmp := json_dumps E td]> (files w); clock := clock w;
        events := EvLog ERROR (format_exc E e)
                  :: EvLog ERROR ("Failed to write trigger file: " +:+ exn_str e)
                  :: EvReplace trigger_tmp TRIGGER_FILE
                  :: EvWrite trigger_tmp :: events w |},
     Val (Some (JObj [("error",
                       JStr ("Failed to trigger generation: " +:+ exn_str e))],
                500))).
Proof.
  intros Hw Hr. unfold publish_trigger, try_except, bind, write_file, os_replace.
  rewrite Hw. cbn [files set_files record]. rewrite lookup_insert_eq, Hr.
  rewrite caught_by_Exception. reflexivity.
Qed.

(** X8: when the temporary trigger file cannot be opened, the request is
    answered 500 with the detail of the failure, at once: the handler does
    not wait for a result, the clock has not moved and the directory is
    exactly as before, so neither the trigger nor the cursor changed. *)
Theorem unwritable_trigger_is_reported
    (body : json) (w : world) (i : Z) (td : json) (e : pyexn) :
  snd (choose_job E body w) = Val (inr (i, td)) ->
  open_w_fault E trigger_tmp = Some e ->
  exists w',
    generate_next E body w
    = (w', Val (JObj [("error",
                       JStr ("Failed to trigger generation: " +:+ exn_str e))],
                500)) /\
    files w' = files w /\
    clock w' = clock w.
Proof.
  intros Hjob Hw.
  destruct (choose_job_footprint E body w) as (_ & Hfiles & Hclock).
  unfold generate_next, bind at 1.
  destruct (choose_job E body w) as [w1 answer]. cbn [fst snd] in *. subst answer.
  unfold bind. rewrite (publish_trigger_open_fails td w1 e Hw).
  eexists. split; [reflexivity|]. cbn [files clock]. split; assumption.
Qed.

(** X9: when the temporary trigger file is written but cannot be renamed
    onto the trigger path, the request is answered 500 with the detail of
    the failure, at once.  The trigger path holds what it held before, so
    the worker is shown no new job; the descriptor stays behind in the
    temporary file, and no other artifact changed. *)
Theorem failed_rename_publishes_nothing
    (body : json) (w : world) (i : Z) (td : json) (e : pyexn) :
  snd (choose_job E body w) = Val (inr (i, td)) ->
  open_w_fault E trigger_tmp = None ->
  replace_fault E trigger_tmp TRIGGER_FILE = Some e ->
  exists w',
    generate_next E body w
    = (w', Val (JObj [("error",
                       JStr ("Failed to trigger generation: " +:+ exn_str e))],
                500)) /\
    files w' !! TRIGGER_FILE = files w !! TRIGGER_FILE /\
    files w' !! trigger_tmp = Some (json_dumps E td) /\
    (forall path, path <> trigger_tmp -> files w' !! path = files w !! path) /\
    clock w' = clock w.
Proof.
  intros Hjob Hw Hr.
  destruct (choose_job_footprint E body w) as (_ & Hfiles & Hclock).
  unfold generate_next, bind at 1.
  destruct (choose_job E body w) as [w1 answer]. cbn [fst snd] in *. subst answer.
  unfold bind. rewrite (publish_trigger_replace_fails td w1 e Hw Hr).
  eexists. split; [reflexivity|]. cbn [files clock]. rewrite Hfiles.
  split; [apply lookup_insert_ne, tmp_not_trigger|].
  split; [apply lookup_insert_eq|]. split; [|exact Hclock].
  intros path Hpath. apply lookup_insert_ne. congruence.
Qed.

(** X10: a successful publication is a single rename: the directory the
    worker is shown holds the whole descriptor under the trigger path and no
    temporary file, and every other artifact is as it was.  The handler
    then sleeps 100 seconds, during which the worker runs. *)
Theorem publication_is_one_rename (td : json) (w : world) :
  open_w_fault E trigger_tmp = None ->
  replace_fault E trigger_tmp TRIGGER_FILE = None ->
  exists shown,
    shown !! TRIGGER_FILE = Some (json_dumps E td) /\
    shown !! trigger_tmp = None /\
    (forall path, path <> TRIGGER_FILE -> path <> trigger_tmp ->
                  shown !! path = files w !! path) /\
    publish_trigger E td w
    = ({| files := run_worker E 100 (clock w) shown;
          clock := clock w + 100;
          events := EvLog INFO ("Trigger data: " +:+ json_dumps E td)
                    :: EvLog INFO ("Trigger file " +:+ TRIGGER_FILE +:+ " written.")
                    :: EvSleep 100
                    :: EvReplace trigger_tmp TRIGGER_FILE
                    :: EvWrite trigger_tmp :: events w |},
       Val None).
Proof.
  intros Hw Hr.
  exists (<[TRIGGER_FILE := json_dumps E td]>
            (delete trigger_tmp (<[trigger_tmp := json_dumps E td]> (files w)))).
  split; [apply lookup_insert_eq|]. split; [|split].
  - rewrite lookup_insert_ne by (apply not_eq_sym, tmp_not_trigger).
    apply lookup_delete_eq.
  - intros path Ht Htmp.
    rewrite lookup_insert_ne by congruence.
    rewrite lookup_delete_ne by congruence.
    apply lookup_insert_ne. congruence.
  - apply (publish_trigger_ok E td w Hw Hr).
Qed.

End Rejected.

(** ** Results that are found but cannot be delivered *)

Section Undelivered.

Variable E : environment.

Lemma bind_ret {A} (m : M A) (w : world) : bind m ret w = m w.
Proof. unfold bind, ret. destruct (m w) as [w1 [a|e|]]; reflexivity. Qed.

(** Once the result file is found at the [k]-th poll, the handler's answer
    is that of the [try] statement run there. *)
Lemma await_result_found (k : nat) (i : Z) (text : string) (w : world) :
  let path := result_file_path i in
  Z.of_nat k < MAX_WAIT_TIME ->
  absent_for E k path w = true ->
  files (idle E k path w) !! path = Some text ->
  await_result E i w
  = try_except (consume_result E i path) [Exception] (discard_result E path)
      (record (EvExists path) (idle E k path w)).
Proof.
  intros path Hk Ha Hf.
  unfold await_result, bind at 1, time_time. fold path.
  unfold bind at 1. rewrite (wait_loop_from_start E k) by (assumption || lia).
  rewrite (wait_loop_found E _ _ _ _ text)
    by (try assumption; rewrite clock_idle; lia).
  unfold bind, ret.
  destruct (try_except _ _ _ _) as [w1 [r|e|]]; reflexivity.
Qed.

(** The [try] block, once the file is read, parsed and removed and the
    cursor advanced, comes to the membership test. *)
Lemma consume_result_reaches_test (i : Z) (path text : string) (w : world)
    (r : json) :
  files w !! path = Some text ->
  json_load E text = inl r ->
  remove_fault E path = None ->
  (i = -1 \/ open_w_fault E STATE_FILE = None) ->
  consume_result E i path (record (EvExists path) w)
  = (consumed i path w,
     match py_in "error" r with
     | Val has_error => Val (r, if has_error then 500 else 200)
     | Raise e => Raise e
     | OutOfFuel => OutOfFuel
     end).
Proof.
  intros Hf Hload Hrm Hst. unfold consume_result.
  unfold bind at 1, read_file. cbn [files record]. rewrite Hf.
  unfold bind at 1, load_json. rewrite Hload. unfold ret at 1.
  unfold bind at 1, logger at 1.
  unfold bind at 1, os_remove. cbn [files record]. rewrite Hf, Hrm.
  unfold bind at 1, logger at 1.
  unfold consumed, removed.
  destruct (i =? -1) eqn:Hi; cbn [negb].
  - unfold bind, ret, lift. destruct (py_in "error" r) as [[]| |]; reflexivity.
  - destruct Hst as [-> | Hst]; [discriminate Hi|].
    unfold bind at 1. unfold bind at 1.
    rewrite (update_current_index_ok E _ _ Hst).
    unfold logger, bind, ret, lift.
    destruct (py_in "error" r) as [[]| |]; reflexivity.
Qed.

(** The [except] clause when the result file is no longer there. *)
Lemma discard_result_absent (path : string) (e : pyexn) (w : world) :
  files w !! path = None ->
  discard_result E path e w
  = (record (EvExists path)
       (record (EvLog ERROR (format_exc E e))
          (record (EvLog ERROR ("Error reading/parsing result file "
                                +:+ path +:+ ": " +:+ exn_str e)) w)),
     Val (JObj [("error", JStr ("Error processing result: " +:+ exn_str e))],
          500)).
Proof.
  intros Hf. unfold discard_result, bind, logger, os_path_exists, ret.
  cbn [files record]. rewrite Hf. reflexivity.
Qed.

(** The [except] clause when the result file is there and cannot be
    removed. *)
Lemma discard_result_stuck (path text : string) (e remove_e : pyexn) (w : world) :
  files w !! path = Some text ->
  remove_fault E path = Some remove_e ->
  discard_result E path e w
  = (record (EvLog WARNING ("Failed to remove corrupted result file: "
                            +:+ exn_str remove_e))
       (record (EvRemove path)
          (record (EvExists path)
             (record (EvLog ERROR (format_exc E e))
                (record (EvLog ERROR ("Error reading/parsing result file "
                                      +:+ path +:+ ": " +:+ exn_str e)) w)))),
     Val (JObj [("error", JStr ("Error processing result: " +:+ exn_str e))],
          500)).
Proof.
  intros Hf Hrm.
  unfold discard_result, bind, logger, os_path_exists, try_except, os_remove, ret.
  repeat (progress (cbn [files record]; rewrite ?Hf)). rewrite Hrm.
  rewrite caught_by_Exception. reflexivity.
Qed.

Lemma consumed_lacks_result (i : Z) (w : world) :
  files (consumed i (result_file_path i) w) !! result_file_path i = None.
Proof.
  rewrite files_consumed. destruct (i =? -1).
  - apply lookup_delete_eq.
  - rewrite lookup_insert_ne by (apply not_eq_sym, result_path_not_state).
    apply lookup_delete_eq.
Qed.

Variables (body : json) (w : world) (i : Z) (td : json) (k : nat)
          (text : string) (r : json).

Let path : string := result_file_path i.
Let found_at : world := idle E k path (published E td (fst (choose_job E body w))).

Hypothesis job_chosen : snd (choose_job E body w) = Val (inr (i, td)).
Hypothesis tmp_writable : open_w_fault E trigger_tmp = None.
Hypothesis rename_works : replace_fault E trigger_tmp TRIGGER_FILE = None.
Hypothesis in_time : Z.of_nat k < MAX_WAIT_TIME.
Hypothesis absent_before :
  absent_for E k path (published E td (fst (choose_job E body w))) = true.
Hypothesis found : files found_at !! path = Some text.
Hypothesis parsed : json_load E text = inl r.

Lemma generate_next_found :
  generate_next E body w
  = try_except (consume_result E i path) [Exception] (discard_result E path)
      (record (EvExists path) found_at).
Proof.
  rewrite (generate_next_awaits E body w i td job_chosen tmp_writable rename_works).
  apply (await_result_found k i text _ in_time absent_before found).
Qed.

(** X11: a result that parses to a bare [null], boolean or number is
    consumed like any other: the artifact is removed and, in sequential
    mode, the cursor is advanced.  Only then does the test
    ["error" in result] raise [TypeError], which the handler answers with
    status 500 and the exception's text; the payload itself is never
    delivered and the removal of the artifact is not attempted again. *)
Theorem scalar_payload_is_consumed_then_fails (e : pyexn) :
  py_in "error" r = Raise e ->
  remove_fault E path = None ->
  (i = -1 \/ open_w_fault E STATE_FILE = None) ->
  exists w',
    generate_next E body w
    = (w', Val (JObj [("error",
                       JStr ("Error processing result: " +:+ exn_str e))], 500))
    /\
    files w' !! path = None /\
    cursor_value (files w')
    = (if i =? -1 then cursor_value (files found_at) else i + 1) /\
    events w'
    = ([EvExists path;
        EvLog ERROR (format_exc E e);
        EvLog ERROR ("Error reading/parsing result file " +:+ path +:+ ": "
                     +:+ exn_str e)] ++ events (consumed i path found_at))%list.
Proof.
  intros Hin Hrm Hst. rewrite generate_next_found.
  unfold try_except.
  rewrite (consume_result_reaches_test i path text found_at r found parsed Hrm Hst).
  rewrite Hin, caught_by_Exception.
  pose proof (consumed_lacks_result i found_at) as Hgone. fold path in Hgone.
  rewrite (discard_result_absent path e _ Hgone).
  eexists. split; [reflexivity|]. cbn [files events record].
  split; [exact Hgone|]. split; [|reflexivity].
  rewrite files_consumed. destruct (i =? -1).
  - apply cursor_value_ext, lookup_delete_ne, result_path_not_state.
  - apply cursor_value_insert.
Qed.

(** X12: when the result artifact is read and parsed but cannot be removed,
    the handler answers status 500 with the text of the failed removal.
    It tries the removal a second time, logs a warning when that fails
    too, delivers no payload and does not advance the cursor: the
    directory is as the worker left it, with the result artifact still in
    place. *)
Theorem unremovable_result_is_not_delivered (e : pyexn) :
  remove_fault E path = Some e ->
  exists w',
    generate_next E body w
    = (w', Val (JObj [("error",
                       JStr ("Error processing result: " +:+ exn_str e))], 500))
    /\
    files w' = files found_at /\
    events w'
    = ([EvLog WARNING ("Failed to remove corrupted result file: " +:+ exn_str e);
        EvRemove path;
        EvExists path;
        EvLog ERROR (format_exc E e);
        EvLog ERROR ("Error reading/parsing result file " +:+ path +:+ ": "
                     +:+ exn_str e);
        EvRemove path;
        EvLog INFO ("Result file found and read: " +:+ path);
        EvRead path;
        EvExists path] ++ events found_at)%list.
Proof.
  intros Hrm. rewrite generate_next_found.
  unfold try_except, consume_result.
  unfold bind at 1, read_file. cbn [files record]. rewrite found.
  unfold bind at 1, load_json. rewrite parsed. unfold ret at 1.
  unfold bind at 1, logger at 1.
  unfold bind at 1, os_remove. cbn [files record]. rewrite found, Hrm.
  rewrite caught_by_Exception.
  match goal with
  | |- context [discard_result E path e ?w0] =>
      rewrite (discard_result_stuck path text e e w0 found Hrm)
  end.
  eexists. split; [reflexivity|]. split; reflexivity.
Qed.


End Undelivered.

(** ** What holds of every request *)

Section EveryRequest.

Variable E : environment.

(** X14: the handler always comes to an end: every request is answered
    with a response or ends with an exception, the polling loop making at
    most [MAX_WAIT_TIME / CHECK_INTERVAL] turns. *)
Theorem handler_always_answers (body : json) (w : world) :
  exists w',
    (exists answer, generate_next E body w = (w', Val answer)) \/
    (exists e, generate_next E body w = (w', Raise e)).
Proof.
  destruct (generate_next_productive E body w) as [_ Htotal].
  destruct (generate_next E body w) as [w' [answer|e|]]; cbn [snd] in Htotal.
  - exists w'. left. exists answer. reflexivity.
  - exists w'. right. exists e. reflexivity.
  - congruence.
Qed.

(** *** The clock *)





End EveryRequest.



Section Duration.

Variable E : environment.








End Duration.

(** ** The cursor moves by one step at most *)

Section CursorSteps.

Variable E : environment.
Variable c : Z.
Hypothesis worker_keeps_cursor : worker_keeps E STATE_FILE.














End CursorSteps.


Section CursorInvariant.

Variable E : environment.
Hypothesis worker_keeps_cursor : worker_keeps E STATE_FILE.







End CursorInvariant.

(** ** Status codes *)







Section Statuses.

Variable E : environment.









End Statuses.

(** ** Consecutive requests *)

Section Consecutive.

Variable E : environment.

(** X19: indexes are handed out one after the other.  When a sequential
    request made at cursor [i] has consumed its result, be it a success or
    a worker-reported error, the same request made again on the directory
    it leaves is given index [i + 1] and the descriptor [{"index": i + 1}],
    or is rejected with status 400 when [i + 1] has reached the
    total-sample bound. *)
Theorem next_request_gets_next_index
    (body cp : json) (w : world) (k : nat) (text : string) (r : json)
    (has_error : bool) :
  let i := cursor_value (files w) in
  let path := result_file_path i in
  let w0 := published E (sequential_descriptor i) (sequential_chosen w) in
  custom_params_of body = Val cp -> py_truthy cp = false ->
  i < get_total_samples -> i <> -1 ->
  open_w_fault E trigger_tmp = None ->
  replace_fault E trigger_tmp TRIGGER_FILE = None ->
  remove_fault E path = None ->
  open_w_fault E STATE_FILE = None ->
  Z.of_nat k < MAX_WAIT_TIME ->
  absent_for E k path w0 = true ->
  files (idle E k path w0) !! path = Some text ->
  json_load E text = inl r ->
  py_in "error" r = Val has_error ->
  exists w',
    generate_next E body w = (w', Val (r, if has_error then 500 else 200)) /\
    snd (choose_job E body w')
    = (if i + 1 >=? get_total_samples
       then Val (inl (JObj [("error", JStr "All samples generated");
                            ("index", JInt (i + 1))], 400))
       else Val (inr (i + 1, JObj [("index", JInt (i + 1))]))).
Proof.
  intros i path w0 Hcp Hseq Hbound Hi Hw Hr Hrm Hst Hk Habs Hfound Hload Hin.
  assert (Hjob : choose_job E body w
                 = (sequential_chosen w, Val (inr (i, sequential_descriptor i)))).
  { rewrite (choose_job_sequential E body cp w Hcp Hseq). fold i.
    destruct (Z.geb_spec i get_total_samples); [lia|reflexivity]. }
  exists (consumed i path (idle E k path w0)).
  rewrite (generate_next_published E body w _ i _ Hjob Hw Hr).
  rewrite (await_result_consumes E k i text _ r has_error)
    by (try assumption; right; assumption).
  split; [reflexivity|].
  rewrite (choose_job_sequential E body cp _ Hcp Hseq).
  assert (Hcursor : cursor_value (files (consumed i path (idle E k path w0)))
                    = i + 1).
  { rewrite files_consumed. apply Z.eqb_neq in Hi. rewrite Hi.
    apply cursor_value_insert. }
  rewrite Hcursor. destruct (i + 1 >=? get_total_samples); reflexivity.
Qed.

End Consecutive.

(** * More concrete runs *)

Module Runs.

Import MiniJson Examples.

Definition denied (path : string) : pyexn :=
  PyExn PermissionError ("[Errno 13] Permission denied: '" +:+ path +:+ "'").

Definition deny (target path : string) : option pyexn :=
  if String.eqb path target then Some (denied path) else None.

Definition allow (path : string) : option pyexn := None.

(** An environment whose file system refuses some operations. *)
Definition env_faulty
    (behaviour : Z -> gmap string string -> gmap string string)
    (open_w remove : string -> option pyexn)
    (replace : string -> string -> option pyexn) : environment :=
  {| json_load := loads;
     json_dumps := dumps;
     format_exc := traceback;
     worker := behaviour;
     open_w_fault := open_w;
     remove_fault := remove;
     replace_fault := replace |}.


Definition env_cursor_denied : environment :=
  env_faulty (writes_at 100 (result_file_path 0) ok_text)
    (deny STATE_FILE) allow (fun _ _ => None).

Lemma cursor_write_failure_witness :
  snd (update_current_index env_cursor_denied 1 fresh)
  = Raise (denied STATE_FILE)
  /\ files (fst (update_current_index env_cursor_denied 1 fresh)) = files fresh.
Proof.
  rewrite (cursor_write_failure_is_raised env_cursor_denied 1 fresh
             (denied STATE_FILE)).
  - split; reflexivity.
  - reflexivity.
Defined.

Lemma falsy_body_witness :
  generate_next env_ok (JArr []) fresh = generate_next env_ok (JObj []) fresh.
Proof.
  destruct (falsy_body_is_empty_body env_ok (JArr []) fresh) as [Hsame _].
  - reflexivity.
  - exact Hsame.
Defined.

Lemma non_object_body_witness :
  generate_next env_ok (JArr [JInt 1]) fresh
  = (fresh, Raise (PyExn AttributeError "'list' object has no attribute 'get'")).
Proof.
  apply (non_object_body_raises env_ok (JArr [JInt 1]) fresh).
  - reflexivity.
  - reflexivity.
Defined.

Definition env_tmp_denied : environment :=
  env_faulty asleep (deny trigger_tmp) allow (fun _ _ => None).

Lemma unwritable_trigger_witness :
  exists w',
    generate_next env_tmp_denied JNull fresh
    = (w', Val (JObj [("error",
                       JStr ("Failed to trigger generation: "
                             +:+ exn_str (denied trigger_tmp)))], 500))
    /\ files w' = files fresh /\ clock w' = 0.
Proof.
  apply (unwritable_trigger_is_reported env_tmp_denied JNull fresh 0
           (JObj [("index", JInt 0)]) (denied trigger_tmp)).
  - vm_compute. reflexivity.
  - reflexivity.
Defined.

Definition env_rename_denied : environment :=
  env_faulty asleep allow allow (fun _ dst => Some (denied dst)).

Lemma failed_rename_witness :
  exists w',
    generate_next env_rename_denied JNull fresh
    = (w', Val (JObj [("error",
                       JStr ("Failed to trigger generation: "
                             +:+ exn_str (denied TRIGGER_FILE)))], 500))
    /\ files w' !! TRIGGER_FILE = None
    /\ files w' !! trigger_tmp = Some (dumps (JObj [("index", JInt 0)])).
Proof.
  destruct (failed_rename_publishes_nothing env_rename_denied JNull fresh 0
              (JObj [("index", JInt 0)]) (denied TRIGGER_FILE))
    as (w' & Hrun & Htrigger & Htmp & _).
  - vm_compute. reflexivity.
  - reflexivity.
  - reflexivity.
  - exists w'. split; [exact Hrun|]. split; [|exact Htmp].
    rewrite Htrigger. reflexivity.
Defined.

Lemma publication_witness :
  exists shown : gmap string string,
    shown !! TRIGGER_FILE = Some (dumps (JObj [("index", JInt 0)])) /\
    shown !! trigger_tmp = None /\
    shown !! STATE_FILE = Some "0".
Proof.
  destruct (publication_is_one_rename env_asleep (JObj [("index", JInt 0)]) fresh)
    as (shown & Htrigger & Htmp & Hothers & _).
  - reflexivity.
  - reflexivity.
  - exists shown. split; [exact Htrigger|]. split; [exact Htmp|].
    rewrite Hothers; [reflexivity|discriminate|discriminate].
Defined.

(** The worker writes the bare number 5 as its result. *)
Definition env_scalar : environment :=
  env_with (writes_at 100 (result_file_path 0) "5").

Lemma scalar_payload_witness :
  exists w',
    generate_next env_scalar JNull fresh
    = (w', Val (JObj [("error",
                       JStr "Error processing result: argument of type 'int' is not iterable")],
                500))
    /\ files w' !! result_file_path 0 = None
    /\ cursor_value (files w') = 1.
Proof.
  destruct (scalar_payload_is_consumed_then_fails env_scalar JNull fresh 0
              (JObj [("index", JInt 0)]) 1 "5" (JInt 5))
    with (e := PyExn TypeError "argument of type 'int' is not iterable")
    as (w' & Hrun & Hgone & Hcursor & _).
  - vm_compute. reflexivity.
  - reflexivity.
  - reflexivity.
  - vm_compute. reflexivity.
  - vm_compute. reflexivity.
  - vm_compute. reflexivity.
  - vm_compute. reflexivity.
  - reflexivity.
  - reflexivity.
  - right. reflexivity.
  - exists w'. split; [exact Hrun|]. split; [exact Hgone|exact Hcursor].
Defined.

Definition env_result_stuck : environment :=
  env_faulty (writes_at 100 (result_file_path 0) ok_text)
    allow (deny (result_file_path 0)) (fun _ _ => None).

Lemma unremovable_result_witness :
  exists w',
    generate_next env_result_stuck JNull fresh
    = (w', Val (JObj [("error",
                       JStr ("Error processing result: "
                             +:+ exn_str (denied (result_file_path 0))))], 500))
    /\ files w' !! result_file_path 0 = Some ok_text
    /\ files w' !! STATE_FILE = Some "0".
Proof.
  destruct (unremovable_result_is_not_delivered env_result_stuck JNull fresh 0
              (JObj [("index", JInt 0)]) 1 ok_text (JObj [("ok", JBool true)]))
    with (e := denied (result_file_path 0))
    as (w' & Hrun & Hfiles & _).
  - vm_compute. reflexivity.
  - reflexivity.
  - reflexivity.
  - vm_compute. reflexivity.
  - vm_compute. reflexivity.
  - vm_compute. reflexivity.
  - vm_compute. reflexivity.
  - vm_compute. reflexivity.
  - exists w'. split; [exact Hrun|]. rewrite Hfiles.
    split; vm_compute; reflexivity.
Defined.






(** Two requests in a row: the second is given index 1. *)
Lemma next_index_witness :
  exists w',
    generate_next env_ok JNull fresh = (w', Val (JObj [("ok", JBool true)], 200))
    /\ snd (choose_job env_ok JNull w') = Val (inr (1, JObj [("index", JInt 1)])).
Proof.
  destruct (next_request_gets_next_index env_ok JNull JNull fresh 1 ok_text
              (JObj [("ok", JBool true)]) false)
    as (w' & Hrun & Hnext).
  - reflexivity.
  - reflexivity.
  - vm_compute. reflexivity.
  - vm_compute. discriminate.
  - reflexivity.
  - reflexivity.
  - reflexivity.
  - reflexivity.
  - vm_compute. reflexivity.
  - vm_compute. reflexivity.
  - vm_compute. reflexivity.
  - vm_compute. reflexivity.
  - reflexivity.
  - exists w'. split; [exact Hrun|exact Hnext].
Defined.

End Runs.
